(** * INFOTECH landing page: animation timing and view-state

    A shallow embedding of the per-frame animators of the 3D scene
    (the two revisions of the scene file kept in the repository,
    [src/unnamed/part_000] and [src/unnamed/part_001]), of the shell
    [src/App.tsx] and of the overlay [src/components/UIOverlay.tsx].

    JavaScript numbers are idealised as real numbers: [Math.sin] is [sin],
    [%] is the truncated remainder [js_rem], and [Math.random] is an
    oracle [nat -> R] read through a cursor. *)

From Stdlib Require Import Reals Lra ZArith Lia Bool List String Ascii.
Import ListNotations.

Open Scope R_scope.

(** ** Numbers *)

(** Rounding toward zero, as the remainder operator of JavaScript does. *)
Definition trunc (x : R) : Z :=
  if Rle_dec 0 x then Int_part x else (- Int_part (- x))%Z.

(** [x % y] for a non-zero divisor: the result has the sign of [x]. *)
Definition js_rem (x y : R) : R := x - y * IZR (trunc (x / y)).

(** [x > y] as the boolean a conditional expression tests. *)
Definition gtb (x y : R) : bool := if Rlt_dec y x then true else false.

(** ** Scene-graph objects (three.js) *)

Record Vector3 := mkVector3 { vx : R; vy : R; vz : R }.

(** [Vector3.setScalar(s)] *)
Definition setScalar (s : R) : Vector3 := mkVector3 s s s.

(** [Vector3.lerpVectors(v1, v2, alpha)]: [v1 + (v2 - v1) * alpha],
    component by component. *)
Definition lerpVectors (v1 v2 : Vector3) (alpha : R) : Vector3 :=
  mkVector3 (vx v1 + (vx v2 - vx v1) * alpha)
            (vy v1 + (vy v2 - vy v1) * alpha)
            (vz v1 + (vz v2 - vz v1) * alpha).

Record Color := mkColor { red : R; green : R; blue : R }.

(** [Color.multiplyScalar(s)] *)
Definition multiplyScalar (c : Color) (s : R) : Color :=
  mkColor (red c * s) (green c * s) (blue c * s).

(** The class of a material, which [instanceof] inspects. *)
Inductive MaterialClass := MeshBasicMaterial | MeshStandardMaterial.

Record Material := mkMaterial {
  mat_class : MaterialClass;
  mat_opacity : R;
  mat_color : Color
}.

Definition isMeshBasicMaterial (m : Material) : bool :=
  match mat_class m with MeshBasicMaterial => true | _ => false end.

(** [material.opacity = op] under the guard
    [material instanceof THREE.MeshBasicMaterial]. *)
Definition setOpacity (op : R) (m : Material) : Material :=
  if isMeshBasicMaterial m then mkMaterial (mat_class m) op (mat_color m)
  else m.

Record Mesh := mkMesh {
  mesh_position : Vector3;
  mesh_scale : Vector3;
  mesh_material : Material
}.

Record PointLight := mkPointLight { light_intensity : R }.

Record Group := mkGroup { rotation_y : R }.

(** ** Randomness and memoised hooks *)

(** The successive results of [Math.random], each in [[0,1)]. *)
Definition Oracle := nat -> R.

(** A render that may call [Math.random]: it reads the oracle at a cursor
    and returns the advanced cursor. *)
Definition Rand (A : Type) : Type := Oracle -> nat -> A * nat.

Definition ret {A : Type} (a : A) : Rand A := fun _ n => (a, n).

Definition bind {A B : Type} (c : Rand A) (k : A -> Rand B) : Rand B :=
  fun rng n => let (a, n') := c rng n in k a rng n'.

Notation "x <- c ;; k" := (bind c (fun x => k))
  (at level 61, c at next level, right associativity).

Definition Math_random : Rand R := fun rng n => (rng n, S n).

(** [useMemo(compute, [])]: the cell of a mounted instance keeps the value
    of its first render; [None] is the cell before the first render. *)
Definition useMemo {A : Type} (compute : Rand A) (cell : option A)
  : Rand (A * option A) :=
  match cell with
  | Some v => ret (v, cell)
  | None => v <- compute ;; ret (v, Some v)
  end.

(** ** The link lights of [src/unnamed/part_000] *)

Module Part000.

(** What the two refs of a [BlinkingLight] point at; [None] is a ref whose
    [current] is [null]. *)
Record Refs := mkRefs { ref : option Mesh; lightRef : option PointLight }.

Definition blinkRate (speed : R) : R := 1.5 + (speed * 0.2).

Definition isOn (elapsedTime offset speed : R) : bool :=
  let t := elapsedTime * speed + offset in
  gtb (sin (t * blinkRate speed)) 0.

Definition intensity (on : bool) : R := if on then 1.0 else 0.15.

Definition scale (on : bool) : R := if on then 1.2 else 0.9.

Definition lightLevel (on : bool) : R := if on then 1.2 else 0.15.

(** [material.opacity = intensity; material.color = colorObj], under the
    [instanceof THREE.MeshBasicMaterial] guard. *)
Definition updateMaterial (color : Color) (on : bool) (m : Material) : Material :=
  if isMeshBasicMaterial m then
    let colorObj := if on then multiplyScalar color 1.3 else color in
    mkMaterial (mat_class m) (intensity on) colorObj
  else m.

(** [lightRef.current.intensity = isOn ? 1.2 : 0.15], under the guard
    [lightRef.current && !isMobile]. *)
Definition updateLight (isMobile on : bool) (l : option PointLight)
  : option PointLight :=
  match l with
  | Some _ => if negb isMobile then Some (mkPointLight (lightLevel on)) else l
  | None => None
  end.

(** The callback [BlinkingLight] registers with [useFrame]. *)
Definition BlinkingLight_useFrame
    (color : Color) (speed : R) (isMobile : bool) (offset : R)
    (elapsedTime : R) (st : Refs) : Refs :=
  match ref st with
  | Some mesh =>
      let on := isOn elapsedTime offset speed in
      let mesh1 :=
        mkMesh (mesh_position mesh) (setScalar (scale on)) (mesh_material mesh) in
      let mesh2 :=
        mkMesh (mesh_position mesh1) (mesh_scale mesh1)
               (updateMaterial color on (mesh_material mesh1)) in
      mkRefs (Some mesh2) (updateLight isMobile on (lightRef st))
  | None => st
  end.

(** The body of [BlinkingLight]: the offset its frame callback closes
    over, and the memo cell after the render. *)
Definition BlinkingLight_render (cell : option R) : Rand (R * option R) :=
  useMemo (r <- Math_random ;; ret (r * 100)) cell.

(** Memo cells of a [ServerBlade]: [lightOffset], [greenLightSpeed],
    [amberLightSpeed], and the cells of its two [BlinkingLight] children. *)
Record BladeHooks := mkBladeHooks {
  lightOffset_cell : option R;
  greenLightSpeed_cell : option R;
  amberLightSpeed_cell : option R;
  green_cell : option R;
  amber_cell : option R
}.

Definition unmounted : BladeHooks := mkBladeHooks None None None None None.

(** A rendered [BlinkingLight]: x position, color, speed, offset. *)
Record LightView := mkLightView {
  lv_x : R; lv_color : string; lv_speed : R; lv_offset : R
}.

Record BladeView := mkBladeView {
  chassisColor : string;
  greenColor : string;
  amberColor : string;
  lights : list LightView
}.

Definition ServerBlade_render (isDarkMode : bool) (h : BladeHooks)
  : Rand (BladeView * BladeHooks) :=
  lo <- useMemo (r <- Math_random ;; ret (r * 100)) (lightOffset_cell h) ;;
  gs <- useMemo (r <- Math_random ;; ret (0.8 + r * 0.4)) (greenLightSpeed_cell h) ;;
  am <- useMemo (r <- Math_random ;; ret (0.8 + r * 0.4)) (amberLightSpeed_cell h) ;;
  let greenColor := if isDarkMode then "#00ff88"%string else "#10b981"%string in
  let amberColor := if isDarkMode then "#ffaa00"%string else "#f59e0b"%string in
  g <- BlinkingLight_render (green_cell h) ;;
  a <- BlinkingLight_render (amber_cell h) ;;
  ret (mkBladeView
         (if isDarkMode then "#1a1a1a"%string else "#f1f5f9"%string)
         greenColor amberColor
         [ mkLightView 0 greenColor (fst gs) (fst g);
           mkLightView 0.08 amberColor (fst am) (fst a) ],
       mkBladeHooks (snd lo) (snd gs) (snd am) (snd g) (snd a)).

End Part000.

(** ** The status lights of [src/unnamed/part_001] *)

Module Part001.

Definition intensity (elapsedTime offset speed : R) : R :=
  let t := elapsedTime * speed + offset in
  (sin (t * 15) + 1) / 2.

Definition scale (elapsedTime offset speed : R) : R :=
  1 + intensity elapsedTime offset speed * 0.3.

Definition opacity (elapsedTime offset speed : R) : R :=
  0.6 + (intensity elapsedTime offset speed * 0.4).

(** The callback [BlinkingLight] registers with [useFrame]. *)
Definition BlinkingLight_useFrame
    (speed offset : R) (elapsedTime : R) (ref : option Mesh) : option Mesh :=
  match ref with
  | Some mesh =>
      let mesh1 :=
        mkMesh (mesh_position mesh)
               (setScalar (scale elapsedTime offset speed))
               (mesh_material mesh) in
      Some (mkMesh (mesh_position mesh1) (mesh_scale mesh1)
                   (setOpacity (opacity elapsedTime offset speed)
                               (mesh_material mesh1)))
  | None => None
  end.

Definition BlinkingLight_render (cell : option R) : Rand (R * option R) :=
  useMemo (r <- Math_random ;; ret (r * 100)) cell.

(** Memo cells of a [ServerBlade]: [hasLights] and the cells of its
    [BlinkingLight] children; the cell of a child that is not rendered is
    dropped. *)
Record BladeHooks := mkBladeHooks {
  hasLights_cell : option bool;
  light0_cell : option R;
  light1_cell : option R;
  light2_cell : option R;
  light3_cell : option R
}.

Definition unmounted : BladeHooks := mkBladeHooks None None None None None.

Record LightView := mkLightView {
  lv_x : R; lv_color : string; lv_speed : R; lv_offset : R
}.

Record BladeView := mkBladeView {
  chassisColor : string;
  lightColor : string;
  secondaryLightColor : string;
  lights : list LightView
}.

(** The children of [ServerBlade] render after its own body, so the draw
    that decides on the fourth light precedes the offsets of the lights. *)
Definition ServerBlade_render (isDarkMode : bool) (h : BladeHooks)
  : Rand (BladeView * BladeHooks) :=
  hl <- useMemo (r <- Math_random ;; ret (gtb r 0.2)) (hasLights_cell h) ;;
  let lightColor := if isDarkMode then "#00ff88"%string else "#059669"%string in
  let secondaryLightColor :=
    if isDarkMode then "#00ffff"%string else "#f43f5e"%string in
  let chassis := if isDarkMode then "#1a1a1a"%string else "#f1f5f9"%string in
  if fst hl then
    r <- Math_random ;;
    l0 <- BlinkingLight_render (light0_cell h) ;;
    l1 <- BlinkingLight_render (light1_cell h) ;;
    l2 <- BlinkingLight_render (light2_cell h) ;;
    if gtb r 0.8 then
      l3 <- BlinkingLight_render (light3_cell h) ;;
      ret (mkBladeView chassis lightColor secondaryLightColor
             [ mkLightView 0 lightColor 4 (fst l0);
               mkLightView 0.05 lightColor 3 (fst l1);
               mkLightView 0.10 lightColor 6 (fst l2);
               mkLightView 0.15 secondaryLightColor 8 (fst l3) ],
           mkBladeHooks (snd hl) (snd l0) (snd l1) (snd l2) (snd l3))
    else
      ret (mkBladeView chassis lightColor secondaryLightColor
             [ mkLightView 0 lightColor 4 (fst l0);
               mkLightView 0.05 lightColor 3 (fst l1);
               mkLightView 0.10 lightColor 6 (fst l2) ],
           mkBladeHooks (snd hl) (snd l0) (snd l1) (snd l2) None)
  else
    ret (mkBladeView chassis lightColor secondaryLightColor [],
         mkBladeHooks (snd hl) None None None None).

End Part001.

(** ** The floor pulses and the sway (the same in both revisions) *)

Definition pulse_progress (elapsedTime offset speed : R) : R :=
  js_rem (elapsedTime * speed + offset) 1.

Definition pulse_opacity (t : R) : R :=
  if gtb t 0.8 then (1 - t) * 5 else 1.

(** The callback [PulsePacket] registers with [useFrame]. *)
Definition PulsePacket_useFrame
    (pathStart pathEnd : Vector3) (speed offset : R)
    (elapsedTime : R) (ref : option Mesh) : option Mesh :=
  match ref with
  | Some mesh =>
      let t := pulse_progress elapsedTime offset speed in
      let mesh1 :=
        mkMesh (lerpVectors pathStart pathEnd t) (mesh_scale mesh)
               (mesh_material mesh) in
      let opacity := pulse_opacity t in
      Some (mkMesh (mesh_position mesh1) (mesh_scale mesh1)
                   (setOpacity opacity (mesh_material mesh1)))
  | None => None
  end.

(** The callback [Composition] registers with [useFrame]. *)
Definition Composition_useFrame (elapsedTime : R) (groupRef : option Group)
  : option Group :=
  match groupRef with
  | Some _ => Some (mkGroup (sin (elapsedTime * 0.1) * 0.05))
  | None => None
  end.

(** The props [CircuitFloor] passes to a [PulsePacket]. *)
Record PulsePacketProps := mkPulsePacketProps {
  pathStart : Vector3;
  pathEnd : Vector3;
  color : string;
  speed : R;
  offset : R
}.

(** The three paths that lead to the rack at [x]. *)
Definition pathsTo (x : R) : list (Vector3 * Vector3) :=
  map (fun i : R => (mkVector3 (x + (i * 0.2 - 0.2)) (-1.24) 6,
                     mkVector3 x (-1.24) 1))
      [0; 1; 2].

(** The memoised [paths] of [CircuitFloor]; no randomness enters them. *)
Definition paths : list (Vector3 * Vector3) :=
  pathsTo 0 ++ pathsTo (-1.25) ++ pathsTo 1.25.

(** [paths.map(...)] in the body of [CircuitFloor]: [speed] and [offset]
    are drawn anew for every packet at every render. *)
Fixpoint pulsePackets (pulseColor : string) (ps : list (Vector3 * Vector3))
  : Rand (list PulsePacketProps) :=
  match ps with
  | [] => ret []
  | path :: rest =>
      r1 <- Math_random ;;
      r2 <- Math_random ;;
      tl <- pulsePackets pulseColor rest ;;
      ret (mkPulsePacketProps (fst path) (snd path) pulseColor
                              (0.5 + r1 * 0.5) (r2 * 10) :: tl)
  end.

Definition CircuitFloor_render (isDarkMode : bool)
  : Rand (list PulsePacketProps) :=
  let pulseColor := if isDarkMode then "#00ff88"%string else "#10b981"%string in
  pulsePackets pulseColor paths.

(** The frame callback of the [PulsePacket] rendered with props [p]. *)
Definition PulsePacket_render (p : PulsePacketProps)
  : R -> option Mesh -> option Mesh :=
  PulsePacket_useFrame (pathStart p) (pathEnd p) (speed p) (offset p).

(** ** View-state: [src/App.tsx] and [src/components/UIOverlay.tsx] *)

(** The three state cells: [activeSection] and [isDarkMode] are the
    [useState] cells of [App], [mobileMenuOpen] the one of [UIOverlay]. *)
Record ViewState := mkViewState {
  activeSection : string;
  isDarkMode : bool;
  mobileMenuOpen : bool
}.

(** The state [App] and [UIOverlay] mount with. *)
Definition initialState : ViewState := mkViewState "home" true false.

Definition setActiveSection (v : string) (s : ViewState) : ViewState :=
  mkViewState v (isDarkMode s) (mobileMenuOpen s).

Definition setIsDarkMode (v : bool) (s : ViewState) : ViewState :=
  mkViewState (activeSection s) v (mobileMenuOpen s).

Definition setMobileMenuOpen (v : bool) (s : ViewState) : ViewState :=
  mkViewState (activeSection s) (isDarkMode s) v.

(** [String.prototype.toLowerCase] on the ASCII letters; other bytes are
    kept. *)
Definition lowerAscii (c : ascii) : ascii :=
  let n := nat_of_ascii c in
  if ((65 <=? n) && (n <=? 90))%nat then ascii_of_nat (n + 32) else c.

Fixpoint toLowerCase (s : string) : string :=
  match s with
  | EmptyString => EmptyString
  | String c rest => String (lowerAscii c) (toLowerCase rest)
  end.

Definition menuItems : list string :=
  ["HOME"; "PROJECTS"; "TOOLS"; "CONTACT"]%string.

(** The callback props [App] hands to [UIOverlay]. A handler is the state
    update it enqueues; [toggleTheme] closes over the [isDarkMode] of the
    render that created it. *)
Record UIOverlayProps := mkUIOverlayProps {
  p_activeSection : string;
  onNavigate : string -> ViewState -> ViewState;
  p_isDarkMode : bool;
  toggleTheme : ViewState -> ViewState
}.

Definition App (rendered : ViewState) : UIOverlayProps :=
  mkUIOverlayProps
    (activeSection rendered)
    setActiveSection
    (isDarkMode rendered)
    (setIsDarkMode (negb (isDarkMode rendered))).

(** [onClick] of a desktop navigation button. *)
Definition navButton_onClick (props : UIOverlayProps) (item : string)
  : ViewState -> ViewState :=
  onNavigate props (toLowerCase item).

(** [onClick] of the hamburger button, rendered with [mobileMenuOpen = open]. *)
Definition hamburger_onClick (open : bool) : ViewState -> ViewState :=
  setMobileMenuOpen (negb open).

(** [onClick] of an entry of the mobile menu: both updates are enqueued by
    the one handler. *)
Definition mobileEntry_onClick (props : UIOverlayProps) (item : string)
  : ViewState -> ViewState :=
  fun s => setMobileMenuOpen false (onNavigate props (toLowerCase item) s).

(** A click on the theme toggle (desktop or mobile) in the tree rendered
    from [s]. *)
Definition clickTheme (s : ViewState) : ViewState :=
  toggleTheme (App s) s.

(** A click on the mobile menu entry [item] in the tree rendered from [s]. *)
Definition clickMobileEntry (item : string) (s : ViewState) : ViewState :=
  mobileEntry_onClick (App s) item s.

(** The class names [UIOverlay] selects from the theme. *)
Record Palette := mkPalette {
  textPrimary : string;
  textSecondary : string;
  borderPrimary : string;
  borderSecondary : string;
  cardBg : string;
  mobileMenuBg : string
}.

Definition palette (isDarkMode : bool) : Palette :=
  mkPalette
    (if isDarkMode then "text-arch-100" else "text-arch-900")
    (if isDarkMode then "text-arch-500" else "text-arch-500")
    (if isDarkMode then "border-arch-100" else "border-arch-900")
    (if isDarkMode then "border-arch-800" else "border-arch-300")
    (if isDarkMode then "bg-arch-900/80" else "bg-white/80")
    (if isDarkMode then "bg-arch-900" else "bg-arch-100").

(** A rendered navigation button: its label and the theme-dependent part of
    its class name. *)
Record NavButton := mkNavButton { nb_label : string; nb_class : string }.

Definition desktopNavButton (props : UIOverlayProps) (pal : Palette)
    (item : string) : NavButton :=
  mkNavButton item
    (if String.eqb (p_activeSection props) (toLowerCase item)
     then textPrimary pal ++ " border-b " ++ borderPrimary pal ++ " opacity-100"
     else textSecondary pal)%string.

Definition mobileNavButton (props : UIOverlayProps) (pal : Palette)
    (item : string) : NavButton :=
  mkNavButton item
    (if String.eqb (p_activeSection props) (toLowerCase item)
     then textPrimary pal else textSecondary pal).

(** What a render of [UIOverlay] shows of the navigation: the palette, the
    label of the theme toggle, the desktop buttons and, when the menu is
    open, the mobile entries. *)
Record OverlayView := mkOverlayView {
  ov_palette : Palette;
  ov_themeLabel : string;
  ov_desktopNav : list NavButton;
  ov_mobileNav : option (list NavButton)
}.

Definition UIOverlay (props : UIOverlayProps) (mobileMenuOpen : bool)
  : OverlayView :=
  let pal := palette (p_isDarkMode props) in
  mkOverlayView
    pal
    (if p_isDarkMode props then "LIGHT MODE" else "DARK MODE")
    (map (desktopNavButton props pal) menuItems)
    (if mobileMenuOpen then Some (map (mobileNavButton props pal) menuItems)
     else None).

(** The overlay rendered from a view-state. *)
Definition renderOverlay (s : ViewState) : OverlayView :=
  UIOverlay (App s) (mobileMenuOpen s).

(** An oracle for worked examples: the draws 0, 0.01, 0.02, ... *)
Definition ramp : Oracle := fun n => INR n / 100.

(** ** Mounting and running frames *)

(** The frames of a session, in the order the renderer calls them. *)
Definition runFrames {S : Type} (frame : R -> S -> S) (ts : list R) (st : S)
  : S :=
  fold_left (fun acc t => frame t acc) ts st.

Definition origin : Vector3 := mkVector3 0 0 0.

(** What the refs of a [BlinkingLight] of [part_000] hold once its JSX is
    mounted: a mesh with a transparent [meshBasicMaterial] of the given
    color and, off mobile only, a point light of intensity 1.5. *)
Definition Part000_BlinkingLight_mount (color : Color) (isMobile : bool)
  : Part000.Refs :=
  Part000.mkRefs
    (Some (mkMesh origin (setScalar 1) (mkMaterial MeshBasicMaterial 1 color)))
    (if negb isMobile then Some (mkPointLight 1.5) else None).

(** The mesh a [PulsePacket] mounts. *)
Definition PulsePacket_mount (color : Color) : option Mesh :=
  Some (mkMesh origin (setScalar 1) (mkMaterial MeshBasicMaterial 1 color)).

(** The offset a [BlinkingLight] closes over after its mount render and
    the re-renders [rs], each with its own oracle and cursor. *)
Definition offsetAfter (mount : Oracle * nat) (rs : list (Oracle * nat)) : R :=
  let first := Part000.BlinkingLight_render None (fst mount) (snd mount) in
  fst (fold_left
         (fun acc r =>
            fst (Part000.BlinkingLight_render (snd acc) (fst r) (snd r)))
         rs (fst first)).

(** ** [ServerRack] and [Composition] *)

Definition rack_height : R := 3.5.
Definition rack_width : R := 1.2.
Definition rack_depth : R := 1.2.

(** The height of the chassis box of a [ServerBlade]. *)
Definition blade_thickness : R := 0.10.

(** [new Array(20).fill(0).map((_, i) => ({ y: -height/2 + 0.2 + (i * 0.15) }))] *)
Definition blades (height : R) : list R :=
  map (fun i : nat => - height / 2 + 0.2 + (INR i * 0.15)) (seq 0 20).

(** The positions [Composition] gives its three [ServerRack]s. *)
Definition rackPositions : list Vector3 :=
  [ mkVector3 (-1.25) 0.5 0; mkVector3 0 0.5 0; mkVector3 1.25 0.5 0 ].

(** ** The rest of [UIOverlay] *)

(** The blocks of the main content area. *)
Inductive ContentBlock :=
  HomeHero | ProjectsPlaceholder | ToolsPlaceholder | ContactCard.

(** The four [activeSection === '...' && (...)] of [<main>], in order. *)
Definition mainContent (activeSection : string) : list ContentBlock :=
  ((if String.eqb activeSection "home" then [HomeHero] else [])
   ++ (if String.eqb activeSection "projects" then [ProjectsPlaceholder] else [])
   ++ (if String.eqb activeSection "tools" then [ToolsPlaceholder] else [])
   ++ (if String.eqb activeSection "contact" then [ContactCard] else []))%list.

(** The opacity class of [<main>]. *)
Definition mainOpacity (mobileMenuOpen : bool) : string :=
  if mobileMenuOpen then "opacity-0" else "opacity-100".

(** The [aria-label] of the hamburger button. *)
Definition hamburgerLabel (mobileMenuOpen : bool) : string :=
  if mobileMenuOpen then "Close Menu" else "Open Menu".

(** The clicks the overlay offers. *)
Inductive Event :=
| ClickThemeToggle
| ClickNav (item : string)
| ClickHamburger
| ClickMobileEntry (item : string)
| ClickMobileTheme.

Definition isMenuItem (item : string) : bool :=
  existsb (String.eqb item) menuItems.

(** The state after a click in the tree rendered from [s]; [None] when that
    tree has no such button: the entries and the theme button of the mobile
    menu exist only while the menu is open, and the navigation has a button
    per menu item only. *)
Definition step (e : Event) (s : ViewState) : option ViewState :=
  let props := App s in
  match e with
  | ClickThemeToggle => Some (toggleTheme props s)
  | ClickNav item =>
      if isMenuItem item then Some (navButton_onClick props item s) else None
  | ClickHamburger => Some (hamburger_onClick (mobileMenuOpen s) s)
  | ClickMobileEntry item =>
      if mobileMenuOpen s && isMenuItem item
      then Some (mobileEntry_onClick props item s) else None
  | ClickMobileTheme =>
      if mobileMenuOpen s then Some (toggleTheme props s) else None
  end.

Fixpoint run (es : list Event) (s : ViewState) : option ViewState :=
  match es with
  | [] => Some s
  | e :: rest =>
      match step e s with
      | Some s' => run rest s'
      | None => None
      end
  end.

(** The values [activeSection] takes. *)
Definition sections : list string :=
  ["home"; "projects"; "tools"; "contact"]%string.

(** ** [ErrorBoundary] of [src/App.tsx] *)

Record Error := mkError { message : string; stack : option string }.

Record BoundaryState := mkBoundaryState {
  hasError : bool;
  error : option Error
}.

(** The state the constructor sets. *)
Definition boundaryInitial : BoundaryState := mkBoundaryState false None.

Definition getDerivedStateFromError (e : Error) : BoundaryState :=
  mkBoundaryState true (Some e).

(** [a || b] on an optional string: the empty string and [undefined] are
    falsy. *)
Definition orElse (a : option string) (b : string) : string :=
  match a with
  | Some EmptyString => b
  | Some s => s
  | None => b
  end.

(** What [render] returns: the fallback panel with its message and stack, or
    the children. *)
Inductive BoundaryView (C : Type) :=
| Fallback (msg : string) (trace : option string)
| Children (children : C).

Arguments Fallback {C} msg trace.
Arguments Children {C} children.

Definition ErrorBoundary_render {C : Type} (st : BoundaryState) (children : C)
  : BoundaryView C :=
  if hasError st then
    Fallback (orElse (option_map message (error st)) "Unknown error")
             (match error st with Some e => stack e | None => None end)
  else Children children.

(** ** The frame callbacks, statement by statement *)

(** What running statements gives: a value, or the [TypeError] JavaScript
    throws on reading a property of [null]. *)
Inductive Outcome (A : Type) : Type :=
| Done (a : A)
| TypeError.

Arguments Done {A} a.
Arguments TypeError {A}.

Definition andThen {A B : Type} (c : Outcome A) (k : A -> Outcome B)
  : Outcome B :=
  match c with
  | Done a => k a
  | TypeError => TypeError
  end.

(** [r.current.prop]: throws when [r.current] is [null]. *)
Definition current {A : Type} (r : option A) : Outcome A :=
  match r with
  | Some a => Done a
  | None => TypeError
  end.

(** [r.current] as a condition. *)
Definition truthy {A : Type} (r : option A) : bool :=
  match r with
  | Some _ => true
  | None => false
  end.

(** [ref.current.scale.setScalar(scale)] *)
Definition stmt_setScalar (s : R) (ref : option Mesh) : Outcome (option Mesh) :=
  andThen (current ref) (fun mesh =>
    Done (Some (mkMesh (mesh_position mesh) (setScalar s) (mesh_material mesh)))).

(** [if (ref.current.material instanceof THREE.MeshBasicMaterial) { ... }]:
    [upd] is the guarded update of the material. *)
Definition stmt_material (upd : Material -> Material) (ref : option Mesh)
  : Outcome (option Mesh) :=
  andThen (current ref) (fun mesh =>
    Done (Some (mkMesh (mesh_position mesh) (mesh_scale mesh)
                       (upd (mesh_material mesh))))).

(** [ref.current.position.lerpVectors(pathStart, pathEnd, t)] *)
Definition stmt_lerp (a b : Vector3) (t : R) (ref : option Mesh)
  : Outcome (option Mesh) :=
  andThen (current ref) (fun mesh =>
    Done (Some (mkMesh (lerpVectors a b t) (mesh_scale mesh)
                       (mesh_material mesh)))).

(** [if (lightRef.current && !isMobile) { lightRef.current.intensity = v }] *)
Definition stmt_light (isMobile : bool) (v : R) (lightRef : option PointLight)
  : Outcome (option PointLight) :=
  if truthy lightRef && negb isMobile
  then andThen (current lightRef) (fun _ => Done (Some (mkPointLight v)))
  else Done lightRef.

(** The block under [if (ref.current)] in the [BlinkingLight] of
    [part_000]. *)
Definition Part000_BlinkingLight_block
    (color : Color) (speed : R) (isMobile : bool) (offset : R)
    (elapsedTime : R) (st : Part000.Refs) : Outcome Part000.Refs :=
  let on := Part000.isOn elapsedTime offset speed in
  andThen (stmt_setScalar (Part000.scale on) (Part000.ref st)) (fun r1 =>
  andThen (stmt_material (Part000.updateMaterial color on) r1) (fun r2 =>
  andThen (stmt_light isMobile (Part000.lightLevel on) (Part000.lightRef st))
          (fun l => Done (Part000.mkRefs r2 l)))).

Definition Part000_BlinkingLight_callback
    (color : Color) (speed : R) (isMobile : bool) (offset : R)
    (elapsedTime : R) (st : Part000.Refs) : Outcome Part000.Refs :=
  if truthy (Part000.ref st)
  then Part000_BlinkingLight_block color speed isMobile offset elapsedTime st
  else Done st.

(** The block under [if (ref.current)] in the [BlinkingLight] of
    [part_001]. *)
Definition Part001_BlinkingLight_block
    (speed offset : R) (elapsedTime : R) (ref : option Mesh)
  : Outcome (option Mesh) :=
  andThen (stmt_setScalar (Part001.scale elapsedTime offset speed) ref)
          (stmt_material (setOpacity (Part001.opacity elapsedTime offset speed))).

Definition Part001_BlinkingLight_callback
    (speed offset : R) (elapsedTime : R) (ref : option Mesh)
  : Outcome (option Mesh) :=
  if truthy ref then Part001_BlinkingLight_block speed offset elapsedTime ref
  else Done ref.

(** The block under [if (ref.current)] in [PulsePacket]. *)
Definition PulsePacket_block
    (pathStart pathEnd : Vector3) (speed offset : R)
    (elapsedTime : R) (ref : option Mesh) : Outcome (option Mesh) :=
  let t := pulse_progress elapsedTime offset speed in
  andThen (stmt_lerp pathStart pathEnd t ref)
          (stmt_material (setOpacity (pulse_opacity t))).

Definition PulsePacket_callback
    (pathStart pathEnd : Vector3) (speed offset : R)
    (elapsedTime : R) (ref : option Mesh) : Outcome (option Mesh) :=
  if truthy ref
  then PulsePacket_block pathStart pathEnd speed offset elapsedTime ref
  else Done ref.

(** [groupRef.current.rotation.y = Math.sin(elapsedTime * 0.1) * 0.05],
    the block under [if (groupRef.current)] in [Composition]. *)
Definition Composition_block (elapsedTime : R) (groupRef : option Group)
  : Outcome (option Group) :=
  andThen (current groupRef) (fun _ =>
    Done (Some (mkGroup (sin (elapsedTime * 0.1) * 0.05)))).

Definition Composition_callback (elapsedTime : R) (groupRef : option Group)
  : Outcome (option Group) :=
  if truthy groupRef then Composition_block elapsedTime groupRef
  else Done groupRef.

(** An oracle for worked examples: 0.9 at its second draw, 0.5 elsewhere. *)
Definition spike : Oracle := fun n => if Nat.eqb n 1 then 0.9 else 0.5.

(** * Properties *)

(** ** Numbers *)

Lemma gtb_true_iff (x y : R) : gtb x y = true <-> y < x.
Proof. unfold gtb. destruct (Rlt_dec y x); split; intros; easy. Qed.

Lemma gtb_false_iff (x y : R) : gtb x y = false <-> x <= y.
Proof. unfold gtb. destruct (Rlt_dec y x); split; intros; try easy; lra. Qed.

Lemma trunc_nonneg (x : R) : 0 <= x -> trunc x = Int_part x.
Proof.
  intros H. unfold trunc.
  destruct (Rle_dec 0 x); [reflexivity | contradiction].
Qed.

Lemma js_rem_1_frac (x : R) : 0 <= x -> js_rem x 1 = frac_part x.
Proof.
  intros H. unfold js_rem, frac_part.
  replace (x / 1) with x by field.
  rewrite (trunc_nonneg x H). ring.
Qed.

Lemma js_rem_1_range (x : R) : 0 <= x -> 0 <= js_rem x 1 < 1.
Proof.
  intros H. rewrite (js_rem_1_frac x H).
  destruct (base_fp x) as [H0 H1]. split; lra.
Qed.

Lemma frac_part_shift (x : R) (k : Z) : frac_part (x + IZR k) = frac_part x.
Proof.
  unfold frac_part.
  assert (E : Int_part (x + IZR k) = (Int_part x + k)%Z).
  { symmetry. apply Int_part_spec. rewrite plus_IZR.
    destruct (base_Int_part x) as [A B]. split; lra. }
  rewrite E, plus_IZR. ring.
Qed.

Lemma frac_part_zero_iff (x : R) : frac_part x = 0 <-> exists k : Z, x = IZR k.
Proof.
  split.
  - intros H. exists (Int_part x). unfold frac_part in H. lra.
  - intros [k ->]. unfold frac_part.
    assert (E : k = Int_part (IZR k)) by (apply Int_part_spec; lra).
    rewrite <- E. ring.
Qed.

(** The remainder keeps the sign of a negative dividend. *)
Lemma js_rem_negative_dividend : js_rem (-0.25) 1 = -0.25.
Proof.
  unfold js_rem, trunc. destruct (Rle_dec 0 (-0.25 / 1)); [lra |].
  assert (E : 0%Z = Int_part (- (-0.25 / 1))) by (apply Int_part_spec; lra).
  rewrite <- E. simpl. lra.
Qed.

(** ** Blinking lights *)

Lemma isOn_true_iff (t o s : R) :
  Part000.isOn t o s = true <-> 0 < sin ((t * s + o) * (1.5 + s * 0.2)).
Proof. unfold Part000.isOn, Part000.blinkRate. apply gtb_true_iff. Qed.

Lemma isOn_off_at_start : Part000.isOn 0 0 1 = false.
Proof.
  apply not_true_is_false. intros C. apply isOn_true_iff in C.
  replace ((0 * 1 + 0) * (1.5 + 1 * 0.2)) with 0 in C by lra.
  rewrite sin_0 in C. lra.
Qed.

Lemma isOn_on_at_quarter_turn : Part000.isOn 0 (PI / 3.4) 1 = true.
Proof.
  apply isOn_true_iff.
  replace ((0 * 1 + PI / 3.4) * (1.5 + 1 * 0.2)) with (PI / 2) by lra.
  rewrite sin_PI2. lra.
Qed.

Lemma status_intensity_bounds (t o s : R) : 0 <= Part001.intensity t o s <= 1.
Proof.
  unfold Part001.intensity.
  destruct (SIN_bound ((t * s + o) * 15)) as [L U]. lra.
Qed.

Lemma status_opacity_at_0 : Part001.opacity 0 0 1 = 0.8.
Proof.
  unfold Part001.opacity, Part001.intensity.
  replace ((0 * 1 + 0) * 15) with 0 by ring. rewrite sin_0. lra.
Qed.

Lemma status_opacity_at_peak : Part001.opacity 0 (PI / 30) 1 = 1.
Proof.
  unfold Part001.opacity, Part001.intensity.
  replace ((0 * 1 + PI / 30) * 15) with (PI / 2) by field.
  rewrite sin_PI2. lra.
Qed.

Lemma status_opacity_at_trough : Part001.opacity 0 (PI / 10) 1 = 0.6.
Proof.
  unfold Part001.opacity, Part001.intensity.
  replace ((0 * 1 + PI / 10) * 15) with (3 * (PI / 2)) by field.
  rewrite sin_3PI2. lra.
Qed.

(** C1, as stated, fails on the status lights of [part_001]: at elapsed time
    0, offset 0 and speed 1 the opacity is 0.8 and the scale 1.15, strictly
    between the extremes 0.6/1.0 and 1.0/1.3, and no two levels cover the
    opacities the light takes. *)
Lemma C1_status_light_eases :
  Part001.opacity 0 0 1 = 0.8 /\ Part001.scale 0 0 1 = 1.15 /\
  ~ (exists a b : R, forall t o s : R,
        Part001.opacity t o s = a \/ Part001.opacity t o s = b).
Proof.
  split; [exact status_opacity_at_0 | split].
  - unfold Part001.scale, Part001.intensity.
    replace ((0 * 1 + 0) * 15) with 0 by ring. rewrite sin_0. lra.
  - intros [a [b H]].
    pose proof (H 0 0 1) as H0. rewrite status_opacity_at_0 in H0.
    pose proof (H 0 (PI / 30) 1) as H1. rewrite status_opacity_at_peak in H1.
    pose proof (H 0 (PI / 10) 1) as H2. rewrite status_opacity_at_trough in H2.
    destruct H0, H1, H2; lra.
Qed.

(** C1 (amended): for every elapsed time t, offset o and speed s, the link
    light of [part_000] computes one of two triples of opacity, scale and
    light intensity, (1, 1.2, 1.2) when on and (0.15, 0.9, 0.15) when off;
    the status light of [part_001] eases instead: its opacity is
    0.8 + 0.2 sin(15 (t s + o)) in [0.6, 1] and its scale
    1.15 + 0.15 sin(15 (t s + o)) in [1, 1.3]. *)
Theorem C1_two_levels_link_lights :
  (forall t o s : R,
      let on := Part000.isOn t o s in
      (on = true /\ Part000.intensity on = 1 /\ Part000.scale on = 1.2
       /\ Part000.lightLevel on = 1.2)
      \/ (on = false /\ Part000.intensity on = 0.15 /\ Part000.scale on = 0.9
          /\ Part000.lightLevel on = 0.15))
  /\ (forall t o s : R,
        Part001.opacity t o s = 0.8 + 0.2 * sin ((t * s + o) * 15)
        /\ Part001.scale t o s = 1.15 + 0.15 * sin ((t * s + o) * 15)
        /\ 0.6 <= Part001.opacity t o s <= 1
        /\ 1 <= Part001.scale t o s <= 1.3).
Proof.
  split.
  - intros t o s on. destruct on; [left | right]; repeat split; simpl; lra.
  - intros t o s.
    pose proof (status_intensity_bounds t o s) as B.
    unfold Part001.opacity, Part001.scale in *.
    unfold Part001.intensity in *.
    repeat split; lra.
Qed.

(** C2, as stated, fails: the rate is not one constant. Two link lights
    with speeds 0.8 and 1 have the rates 1.66 and 1.7, and at elapsed time 0
    and offset PI/1.68 the first is on and the second off, which no fixed
    rate allows. *)
Lemma C2_rate_follows_speed :
  Part000.blinkRate 0.8 <> Part000.blinkRate 1 /\
  Part000.isOn 0 (PI / 1.68) 0.8 = true /\
  Part000.isOn 0 (PI / 1.68) 1 = false /\
  ~ (exists rate : R, forall t o s : R,
        Part000.isOn t o s = true <-> sin ((t * s + o) * rate) > 0).
Proof.
  pose proof PI_RGT_0 as Hpi.
  assert (A : Part000.isOn 0 (PI / 1.68) 0.8 = true).
  { apply isOn_true_iff.
    replace ((0 * 0.8 + PI / 1.68) * (1.5 + 0.8 * 0.2))
      with (PI * (1.66 / 1.68)) by lra.
    apply sin_gt_0; nra. }
  assert (B : Part000.isOn 0 (PI / 1.68) 1 = false).
  { apply not_true_is_false. intros C. apply isOn_true_iff in C.
    replace ((0 * 1 + PI / 1.68) * (1.5 + 1 * 0.2))
      with (PI * (1.7 / 1.68)) in C by lra.
    assert (sin (PI * (1.7 / 1.68)) < 0) by (apply sin_lt_0; nra).
    lra. }
  repeat split; try assumption.
  - unfold Part000.blinkRate. lra.
  - intros [rate H].
    pose proof (proj1 (H 0 (PI / 1.68) 0.8) A) as P.
    replace (0 * 0.8 + PI / 1.68) with (0 * 1 + PI / 1.68) in P by ring.
    apply (H 0 (PI / 1.68) 1) in P. congruence.
Qed.

(** C2 (amended): for every elapsed time t, offset o and speed s, the link
    light is on exactly when sin((t s + o) rate) > 0, where the rate is
    1.5 + 0.2 s: it grows with the speed of the instance. *)
Theorem C2_isOn_condition :
  forall t o s : R,
    (Part000.isOn t o s = true <-> sin ((t * s + o) * Part000.blinkRate s) > 0)
    /\ Part000.blinkRate s = 1.5 + 0.2 * s
    /\ (forall s' : R, s < s' -> Part000.blinkRate s < Part000.blinkRate s').
Proof.
  intros t o s. split; [| split].
  - unfold Part000.isOn. rewrite gtb_true_iff. split; intros; lra.
  - unfold Part000.blinkRate. ring.
  - intros s' H. unfold Part000.blinkRate. lra.
Qed.

(** On a phone, or without a mounted point light, the frame leaves the
    light reference as it found it. *)
Lemma link_light_frame_keeps_light (color : Color) (speed offset t : R)
      (isMobile : bool) (mesh : Mesh) (l : option PointLight) :
  isMobile = true \/ l = None ->
  Part000.lightRef
    (Part000.BlinkingLight_useFrame color speed isMobile offset t
       (Part000.mkRefs (Some mesh) l)) = l.
Proof.
  intros [-> | ->]; simpl; [destruct l |]; reflexivity.
Qed.

(** C10: on desktop, a frame of the link light on a mounted mesh and point
    light writes
    opacity 1.0, light intensity 1.2 and scale 1.2 when the light is on, and
    opacity 0.15, light intensity 0.15 and scale 0.9 when it is off; the off
    levels are strictly positive. *)
Theorem C10_blink_levels :
  forall (color : Color) (speed offset t : R) (pos scl : Vector3)
         (op : R) (c : Color) (l : PointLight),
    Part000.BlinkingLight_useFrame color speed false offset t
      (Part000.mkRefs
         (Some (mkMesh pos scl (mkMaterial MeshBasicMaterial op c)))
         (Some l))
    = (if Part000.isOn t offset speed
       then Part000.mkRefs
              (Some (mkMesh pos (setScalar 1.2)
                            (mkMaterial MeshBasicMaterial 1.0
                                        (multiplyScalar color 1.3))))
              (Some (mkPointLight 1.2))
       else Part000.mkRefs
              (Some (mkMesh pos (setScalar 0.9)
                            (mkMaterial MeshBasicMaterial 0.15 color)))
              (Some (mkPointLight 0.15)))
    /\ 0 < Part000.intensity false
    /\ 0 < Part000.lightLevel false
    /\ 0 < Part000.scale false.
Proof.
  intros color speed offset t pos scl op c l. repeat split.
  - unfold Part000.BlinkingLight_useFrame. simpl.
    destruct (Part000.isOn t offset speed); reflexivity.
  - simpl. lra.
  - simpl. lra.
  - simpl. lra.
Qed.

Lemma C10_blink_levels_witness :
  Part000.BlinkingLight_useFrame (mkColor 0 1 0.5) 1 false 0 0
    (Part000.mkRefs
       (Some (mkMesh (mkVector3 0 0 0) (setScalar 1)
                     (mkMaterial MeshBasicMaterial 1 (mkColor 0 1 0.5))))
       (Some (mkPointLight 1.5)))
  = Part000.mkRefs
      (Some (mkMesh (mkVector3 0 0 0) (setScalar 0.9)
                    (mkMaterial MeshBasicMaterial 0.15 (mkColor 0 1 0.5))))
      (Some (mkPointLight 0.15)).
Proof.
  rewrite (proj1 (C10_blink_levels (mkColor 0 1 0.5) 1 0 0 (mkVector3 0 0 0)
                    (setScalar 1) 1 (mkColor 0 1 0.5) (mkPointLight 1.5))).
  rewrite isOn_off_at_start. reflexivity.
Defined.

(** ** Pulses *)

Lemma pulse_progress_example : pulse_progress 2.5 0.25 1 = 0.75.
Proof.
  unfold pulse_progress. rewrite js_rem_1_frac by lra.
  replace (2.5 * 1 + 0.25) with (0.75 + IZR 2) by lra.
  rewrite frac_part_shift. unfold frac_part.
  assert (E : 0%Z = Int_part 0.75) by (apply Int_part_spec; lra).
  rewrite <- E. lra.
Qed.

(** C3: for elapsed time t >= 0, speed s > 0 and offset o >= 0 the
    progress (t s + o) mod 1 lies in [0,1); it is 0 exactly when t s + o is
    an integer and repeats after every whole number of periods 1/s; the
    frame puts the marker at the linear interpolation of the path's start
    and end at that progress. *)
Theorem C3_pulse_progress :
  forall t s o : R, 0 <= t -> 0 < s -> 0 <= o ->
    let p := pulse_progress t o s in
    0 <= p < 1
    /\ (p = 0 <-> exists k : Z, t * s + o = IZR k)
    /\ (forall k : nat, pulse_progress (t + INR k / s) o s = p)
    /\ (forall (a b : Vector3) (mesh : Mesh),
          exists mesh' : Mesh,
            PulsePacket_useFrame a b s o t (Some mesh) = Some mesh'
            /\ mesh_position mesh' = lerpVectors a b p
            /\ vx (mesh_position mesh') = (1 - p) * vx a + p * vx b
            /\ vy (mesh_position mesh') = (1 - p) * vy a + p * vy b
            /\ vz (mesh_position mesh') = (1 - p) * vz a + p * vz b).
Proof.
  intros t s o Ht Hs Ho p.
  assert (Hx : 0 <= t * s + o) by nra.
  repeat split.
  - apply (js_rem_1_range _ Hx).
  - apply (js_rem_1_range _ Hx).
  - unfold p, pulse_progress. rewrite (js_rem_1_frac _ Hx).
    apply frac_part_zero_iff.
  - unfold p, pulse_progress. rewrite (js_rem_1_frac _ Hx).
    apply frac_part_zero_iff.
  - intros k. unfold p, pulse_progress.
    assert (Hk : 0 <= INR k) by apply pos_INR.
    replace ((t + INR k / s) * s + o) with (t * s + o + IZR (Z.of_nat k))
      by (rewrite <- INR_IZR_INZ; field; lra).
    rewrite !js_rem_1_frac.
    + apply frac_part_shift.
    + exact Hx.
    + rewrite <- INR_IZR_INZ. lra.
  - intros a b mesh. eexists. split; [reflexivity |].
    simpl. fold p. repeat split; ring.
Qed.

Lemma C3_pulse_progress_witness :
  (0 <= 2.5 /\ 0 < 1 /\ 0 <= 0.25) /\ 0 <= pulse_progress 2.5 0.25 1 < 1.
Proof.
  split; [lra |].
  apply (C3_pulse_progress 2.5 1 0.25); lra.
Defined.

(** C4: for a progress p in [0,1) the opacity of the marker is 1 when
    p <= 0.8 and (1 - p) * 5 when p > 0.8; from 0.8 on it decreases strictly,
    stays positive and tends to 0 as p approaches 1, and the two branches
    agree at p = 0.8. Every such p is the progress of a frame, and a frame
    whose progress is p writes that opacity to the material of the
    marker. *)
Theorem C4_pulse_opacity :
  forall p : R, 0 <= p < 1 ->
    (p <= 0.8 -> pulse_opacity p = 1)
    /\ (0.8 < p -> pulse_opacity p = (1 - p) * 5 /\ 0 < pulse_opacity p < 1)
    /\ (forall q : R, 0.8 <= p -> p < q < 1 -> pulse_opacity q < pulse_opacity p)
    /\ pulse_opacity 0.8 = (1 - 0.8) * 5
    /\ (forall eps : R, 0 < eps ->
          exists delta : R, 0 < delta /\
            forall q : R, 1 - delta < q < 1 -> 0 < pulse_opacity q < eps)
    /\ pulse_progress p 0 1 = p
    /\ (forall (a b : Vector3) (s o t : R) (pos scl : Vector3) (op : R)
               (c : Color),
          pulse_progress t o s = p ->
          PulsePacket_useFrame a b s o t
            (Some (mkMesh pos scl (mkMaterial MeshBasicMaterial op c)))
          = Some (mkMesh (lerpVectors a b p) scl
                    (mkMaterial MeshBasicMaterial
                       (if Rle_dec p 0.8 then 1 else (1 - p) * 5) c))).
Proof.
  intros p [Hp0 Hp1].
  assert (Hi : forall q, q <= 0.8 -> pulse_opacity q = 1).
  { intros q Hq. unfold pulse_opacity.
    rewrite (proj2 (gtb_false_iff q 0.8) Hq). reflexivity. }
  assert (Hd : forall q, 0.8 < q -> pulse_opacity q = (1 - q) * 5).
  { intros q Hq. unfold pulse_opacity.
    rewrite (proj2 (gtb_true_iff q 0.8) Hq). reflexivity. }
  split; [apply Hi | split; [| split; [| split; [| split; [| split]]]]].
  - intros H. rewrite (Hd p H). lra.
  - intros q Hp [Hq Hq1]. rewrite (Hd q) by lra.
    destruct (Rle_lt_dec p 0.8) as [Hle | Hlt].
    + rewrite (Hi p Hle). lra.
    + rewrite (Hd p Hlt). lra.
  - rewrite Hi; lra.
  - intros eps Heps. exists (Rmin (eps / 5) 0.2). split.
    + apply Rmin_glb_lt; lra.
    + intros q [Hq Hq1].
      pose proof (Rmin_l (eps / 5) 0.2). pose proof (Rmin_r (eps / 5) 0.2).
      rewrite Hd by lra. lra.
  - unfold pulse_progress. replace (p * 1 + 0) with p by ring.
    rewrite js_rem_1_frac by exact Hp0. unfold frac_part.
    assert (E : 0%Z = Int_part p) by (apply Int_part_spec; lra).
    rewrite <- E. lra.
  - intros a b s o t pos scl op c Hp.
    unfold PulsePacket_useFrame, setOpacity, isMeshBasicMaterial.
    cbn [mesh_position mesh_scale mesh_material mat_class mat_color].
    rewrite Hp. do 3 f_equal.
    destruct (Rle_dec p 0.8) as [Hle | Hgt].
    + apply Hi, Hle.
    + apply Hd. lra.
Qed.

Lemma C4_pulse_opacity_witness :
  (0 <= 0.5 < 1 /\ pulse_opacity 0.5 = 1)
  /\ (0 <= 0.9 < 1 /\ pulse_opacity 0.9 = (1 - 0.9) * 5)
  /\ (pulse_progress 0.9 0 1 = 0.9
      /\ PulsePacket_useFrame origin (mkVector3 0 0 1) 1 0 0.9
           (Some (mkMesh origin (setScalar 1)
                    (mkMaterial MeshBasicMaterial 1 (mkColor 0 1 0.5))))
         = Some (mkMesh (lerpVectors origin (mkVector3 0 0 1) 0.9)
                   (setScalar 1)
                   (mkMaterial MeshBasicMaterial
                      (if Rle_dec 0.9 0.8 then 1 else (1 - 0.9) * 5)
                      (mkColor 0 1 0.5)))).
Proof.
  assert (B : 0 <= 0.9 < 1) by lra.
  pose proof (C4_pulse_opacity 0.9 B) as (_ & H2 & _ & _ & _ & H6 & H7).
  split; [split; [lra |] | split; [split; [lra |] | split]].
  - apply (C4_pulse_opacity 0.5); lra.
  - apply H2. lra.
  - exact H6.
  - apply H7. exact H6.
Defined.

(** ** The frame callbacks never fail *)

Lemma link_light_callback_runs (color : Color) (speed : R) (isMobile : bool)
      (offset t : R) (st : Part000.Refs) :
  Part000_BlinkingLight_callback color speed isMobile offset t st
  = Done (Part000.BlinkingLight_useFrame color speed isMobile offset t st).
Proof.
  destruct st as [[mesh |] l]; [| reflexivity].
  unfold Part000_BlinkingLight_callback, Part000_BlinkingLight_block,
    Part000.BlinkingLight_useFrame.
  cbn [truthy Part000.ref Part000.lightRef stmt_setScalar stmt_material
       current andThen mesh_position mesh_scale mesh_material].
  unfold stmt_light, Part000.updateLight.
  destruct l as [l |]; [destruct isMobile |]; reflexivity.
Qed.

(** C9: run statement by statement, where reading a property of a null
    ref throws, every frame callback finishes without throwing on every
    time, offset and speed, with the result of its frame function. With its
    target absent it returns the state it was given; with the target present
    it writes the frame: the scale of a light, the position of a packet, the
    rotation of the group. The guard is what keeps it from failing: the
    guarded block alone throws on an absent target. *)
Theorem C9_animator_never_throws :
  forall (color : Color) (speed offset t : R) (isMobile : bool)
         (a b : Vector3),
    ((forall st : Part000.Refs,
         Part000_BlinkingLight_callback color speed isMobile offset t st
         = Done (Part000.BlinkingLight_useFrame color speed isMobile offset t st))
     /\ (forall r : option Mesh,
            Part001_BlinkingLight_callback speed offset t r
            = Done (Part001.BlinkingLight_useFrame speed offset t r))
     /\ (forall r : option Mesh,
            PulsePacket_callback a b speed offset t r
            = Done (PulsePacket_useFrame a b speed offset t r))
     /\ (forall g : option Group,
            Composition_callback t g = Done (Composition_useFrame t g)))
    /\ ((forall l : option PointLight,
            Part000_BlinkingLight_callback color speed isMobile offset t
              (Part000.mkRefs None l) = Done (Part000.mkRefs None l))
        /\ Part001_BlinkingLight_callback speed offset t None = Done None
        /\ PulsePacket_callback a b speed offset t None = Done None
        /\ Composition_callback t None = Done None)
    /\ ((forall l : option PointLight,
            Part000_BlinkingLight_block color speed isMobile offset t
              (Part000.mkRefs None l) = TypeError)
        /\ Part001_BlinkingLight_block speed offset t None = TypeError
        /\ PulsePacket_block a b speed offset t None = TypeError
        /\ Composition_block t None = TypeError)
    /\ ((forall (mesh : Mesh) (l : option PointLight),
            exists (mat : Material) (l' : option PointLight),
              Part000_BlinkingLight_callback color speed isMobile offset t
                (Part000.mkRefs (Some mesh) l)
              = Done (Part000.mkRefs
                        (Some (mkMesh (mesh_position mesh)
                                 (setScalar
                                    (if Part000.isOn t offset speed
                                     then 1.2 else 0.9))
                                 mat))
                        l'))
        /\ (forall mesh : Mesh,
               exists mat : Material,
                 Part001_BlinkingLight_callback speed offset t (Some mesh)
                 = Done (Some (mkMesh (mesh_position mesh)
                                 (setScalar
                                    (1 + (sin ((t * speed + offset) * 15) + 1)
                                         / 2 * 0.3))
                                 mat)))
        /\ (forall mesh : Mesh,
               exists mat : Material,
                 PulsePacket_callback a b speed offset t (Some mesh)
                 = Done (Some (mkMesh
                                 (lerpVectors a b
                                    (js_rem (t * speed + offset) 1))
                                 (mesh_scale mesh) mat)))
        /\ (forall g : Group,
               Composition_callback t (Some g)
               = Done (Some (mkGroup (sin (t * 0.1) * 0.05))))).
Proof.
  intros color speed offset t isMobile a b.
  split; [| split; [| split]].
  - split; [| split; [| split]].
    + intros st. apply link_light_callback_runs.
    + intros [mesh |]; reflexivity.
    + intros [mesh |]; reflexivity.
    + intros [g |]; reflexivity.
  - repeat split.
  - repeat split.
  - split; [| split; [| split]].
    + intros mesh l. rewrite link_light_callback_runs.
      do 2 eexists. reflexivity.
    + intros mesh. eexists. reflexivity.
    + intros mesh. eexists. reflexivity.
    + intros g. reflexivity.
Qed.

(** ** Phase offsets across re-renders *)

Lemma useMemo_result {A : Type} (compute : Rand A) (cell : option A)
      (rng : Oracle) (n : nat) :
  exists (v : A) (k : nat), useMemo compute cell rng n = ((v, Some v), k).
Proof.
  destruct cell as [v |]; simpl.
  - exists v, n. reflexivity.
  - unfold bind. destruct (compute rng n) as [v n'].
    exists v, n'. reflexivity.
Qed.

(** Names the result of the innermost [useMemo] on a cell that is not
    known to be filled. *)
Ltac step_memo :=
  match goal with
  | |- context [useMemo ?c ?cell ?rng ?n] =>
      lazymatch cell with
      | Some _ => fail
      | context [@useMemo] => fail
      | _ =>
          let v := fresh "v" in
          let k := fresh "k" in
          let E := fresh "E" in
          destruct (useMemo_result c cell rng n) as (v & k & E); rewrite E
      end
  end.

(** Once a [BlinkingLight] has rendered, every later render returns the
    offset of the first one and draws nothing. *)
Lemma link_light_offset_assigned_once (cell : option R) (rng : Oracle) (n : nat) :
  forall (rng' : Oracle) (m : nat),
    let first := Part000.BlinkingLight_render cell rng n in
    Part000.BlinkingLight_render (snd (fst first)) rng' m = (fst first, m).
Proof.
  intros rng' m first. unfold first, Part000.BlinkingLight_render.
  step_memo. reflexivity.
Qed.

Lemma status_light_offset_assigned_once (cell : option R) (rng : Oracle) (n : nat) :
  forall (rng' : Oracle) (m : nat),
    let first := Part001.BlinkingLight_render cell rng n in
    Part001.BlinkingLight_render (snd (fst first)) rng' m = (fst first, m).
Proof. exact (link_light_offset_assigned_once cell rng n). Qed.

Lemma pulsePackets_cons (c : string) (p : Vector3 * Vector3)
      (rest : list (Vector3 * Vector3)) (rng : Oracle) (n : nat) :
  pulsePackets c (p :: rest) rng n
  = (mkPulsePacketProps (fst p) (snd p) c (0.5 + rng n * 0.5) (rng (S n) * 10)
       :: fst (pulsePackets c rest rng (S (S n))),
     snd (pulsePackets c rest rng (S (S n)))).
Proof.
  simpl. unfold bind, Math_random, ret.
  destruct (pulsePackets c rest rng (S (S n))) as [tl k]. reflexivity.
Qed.

(** A render of the floor started at cursor [n] gives packet [i] the
    offset drawn at [n + 2 i + 1], and moves the cursor by two draws a
    packet. *)
Lemma pulsePackets_offsets (c : string) (ps : list (Vector3 * Vector3))
      (rng : Oracle) :
  forall n : nat,
    map offset (fst (pulsePackets c ps rng n))
    = map (fun i => rng (n + 2 * i + 1)%nat * 10) (seq 0 (List.length ps))
    /\ snd (pulsePackets c ps rng n) = (n + 2 * List.length ps)%nat.
Proof.
  induction ps as [| p rest IH]; intros n.
  - simpl. split; [reflexivity | lia].
  - rewrite pulsePackets_cons. destruct (IH (S (S n))) as [IHo IHn].
    cbn [fst snd map offset List.length seq]. split.
    + rewrite IHo, <- seq_shift, map_map.
      replace (n + 2 * 0 + 1)%nat with (S n) by lia.
      f_equal. apply map_ext. intros i.
      replace (n + 2 * S i + 1)%nat with (S (S n) + 2 * i + 1)%nat by lia.
      reflexivity.
    + rewrite IHn. lia.
Qed.

(** Whatever the oracle, a re-render of the floor moves the offset of the
    first packet from the draw at [n + 1] to the draw at [n + 19]. *)
Lemma pulse_offset_follows_oracle (dark : bool) (rng : Oracle) (n : nat) :
  let first := CircuitFloor_render dark rng n in
  let second := CircuitFloor_render dark rng (snd first) in
  nth 0%nat (map offset (fst first)) 0 = rng (n + 1)%nat * 10
  /\ nth 0%nat (map offset (fst second)) 0 = rng (n + 19)%nat * 10.
Proof.
  intros first second. unfold second, first, CircuitFloor_render.
  rewrite (proj2 (pulsePackets_offsets _ paths rng n)).
  rewrite !(proj1 (pulsePackets_offsets _ paths rng _)).
  cbn [paths pathsTo map app List.length seq nth].
  split; f_equal; f_equal; lia.
Qed.

(** C7, on the floor pulses: the offsets of the nine packets are drawn
    again at every render of [CircuitFloor]. With the draws 0, 0.01, 0.02,
    ... the first render gives the packets the offsets 0.1, 0.3, ..., 1.7
    and the next render 1.9, 2.1, ..., 3.5: the offset of a mounted packet
    has changed. *)
Theorem C7_pulse_offset_redrawn :
  let first := CircuitFloor_render true ramp 0%nat in
  let second := CircuitFloor_render true ramp (snd first) in
  map offset (fst first)
  = [0.1; 0.3; 0.5; 0.7; 0.9; 1.1; 1.3; 1.5; 1.7]
  /\ map offset (fst second)
     = [1.9; 2.1; 2.3; 2.5; 2.7; 2.9; 3.1; 3.3; 3.5]
  /\ nth 0%nat (map offset (fst first)) 0
     <> nth 0%nat (map offset (fst second)) 0.
Proof.
  intros first second.
  assert (F : map offset (fst first)
              = [0.1; 0.3; 0.5; 0.7; 0.9; 1.1; 1.3; 1.5; 1.7]).
  { unfold first, CircuitFloor_render.
    rewrite (proj1 (pulsePackets_offsets _ paths ramp 0%nat)).
    unfold ramp. simpl. repeat (apply f_equal2; [lra |]). reflexivity. }
  assert (N : snd first = 18%nat).
  { unfold first, CircuitFloor_render.
    rewrite (proj2 (pulsePackets_offsets _ paths ramp 0%nat)). reflexivity. }
  assert (F2 : map offset (fst second)
              = [1.9; 2.1; 2.3; 2.5; 2.7; 2.9; 3.1; 3.3; 3.5]).
  { unfold second, CircuitFloor_render. rewrite N.
    rewrite (proj1 (pulsePackets_offsets _ paths ramp 18%nat)).
    unfold ramp. simpl. repeat (apply f_equal2; [lra |]). reflexivity. }
  split; [exact F | split; [exact F2 |]].
  rewrite F, F2. simpl. lra.
Qed.

(** ** View-state transitions *)

(** Two calls of the [toggleTheme] of one render set the same value: the
    handler holds the theme it was rendered with. *)
Lemma toggleTheme_of_one_render (s : ViewState) :
  toggleTheme (App s) (toggleTheme (App s) s) = toggleTheme (App s) s.
Proof. reflexivity. Qed.

(** C5: a click on the theme toggle flips the theme and leaves the section
    and the menu flag alone; two clicks return the view-state to its
    original value. *)
Theorem C5_theme_toggle_involution :
  forall s : ViewState,
    clickTheme (clickTheme s) = s
    /\ isDarkMode (clickTheme s) = negb (isDarkMode s)
    /\ activeSection (clickTheme s) = activeSection s
    /\ mobileMenuOpen (clickTheme s) = mobileMenuOpen s.
Proof.
  intros [sec dark menu]. unfold clickTheme. simpl.
  unfold setIsDarkMode. simpl. rewrite negb_involutive. repeat split.
Qed.

(** C6: for every menu item and every view-state, selecting the mobile
    menu entry sets the section to the lowercased label and the menu flag
    to false in one transition, and keeps the theme; the four labels
    lowercase to home, projects, tools and contact. *)
Theorem C6_mobile_entry_select :
  forall (item : string) (s : ViewState),
    clickMobileEntry item s
    = mkViewState (toLowerCase item) (isDarkMode s) false
    /\ activeSection (clickMobileEntry item s) = toLowerCase item
    /\ mobileMenuOpen (clickMobileEntry item s) = false
    /\ map toLowerCase menuItems
       = ["home"; "projects"; "tools"; "contact"]%string.
Proof.
  intros item s. repeat split.
Qed.

(** ** Rendering and hidden randomness *)

Lemma status_blade_shape (dark : bool) (h : Part001.BladeHooks)
      (rng : Oracle) (n : nat) :
  exists (ls : list Part001.LightView) (h' : Part001.BladeHooks) (k : nat),
    Part001.ServerBlade_render dark h rng n
    = (Part001.mkBladeView
         (if dark then "#1a1a1a" else "#f1f5f9")%string
         (if dark then "#00ff88" else "#059669")%string
         (if dark then "#00ffff" else "#f43f5e")%string
         ls, h', k)
    /\ Forall (fun l => Part001.lv_color l
                        = (if dark then "#00ff88" else "#059669")%string
                        \/ Part001.lv_color l
                           = (if dark then "#00ffff" else "#f43f5e")%string)
              ls.
Proof.
  unfold Part001.ServerBlade_render, bind.
  destruct (useMemo _ (Part001.hasLights_cell h) rng n) as [[hl c] k].
  cbn [fst snd]. destruct hl.
  - unfold Math_random at 1.
    destruct (Part001.BlinkingLight_render (Part001.light0_cell h) rng (S k))
      as [l0 k0].
    destruct (Part001.BlinkingLight_render (Part001.light1_cell h) rng k0)
      as [l1 k1].
    destruct (Part001.BlinkingLight_render (Part001.light2_cell h) rng k1)
      as [l2 k2].
    destruct (gtb (rng k) 0.8).
    + destruct (Part001.BlinkingLight_render (Part001.light3_cell h) rng k2)
        as [l3 k3].
      do 3 eexists. split; [reflexivity |].
      repeat (apply Forall_cons; [cbn; auto |]). apply Forall_nil.
    + do 3 eexists. split; [reflexivity |].
      repeat (apply Forall_cons; [cbn; auto |]). apply Forall_nil.
  - do 3 eexists. split; [reflexivity |]. constructor.
Qed.

Lemma status_blade_palette (dark : bool) (h : Part001.BladeHooks)
      (rng : Oracle) (n : nat) :
  let v := fst (fst (Part001.ServerBlade_render dark h rng n)) in
  Part001.lightColor v = (if dark then "#00ff88" else "#059669")%string
  /\ Part001.secondaryLightColor v
     = (if dark then "#00ffff" else "#f43f5e")%string
  /\ Part001.chassisColor v = (if dark then "#1a1a1a" else "#f1f5f9")%string
  /\ Forall (fun l => Part001.lv_color l = Part001.lightColor v
                      \/ Part001.lv_color l = Part001.secondaryLightColor v)
            (Part001.lights v).
Proof.
  destruct (status_blade_shape dark h rng n) as (ls & h' & k & E & F).
  rewrite E. cbn. repeat split. exact F.
Qed.

Lemma link_blade_shape (dark : bool) (h : Part000.BladeHooks)
      (rng : Oracle) (n : nat) :
  exists (lo s1 s2 o1 o2 : R) (k : nat),
    Part000.ServerBlade_render dark h rng n
    = (Part000.mkBladeView
         (if dark then "#1a1a1a" else "#f1f5f9")%string
         (if dark then "#00ff88" else "#10b981")%string
         (if dark then "#ffaa00" else "#f59e0b")%string
         [ Part000.mkLightView 0
             (if dark then "#00ff88" else "#10b981")%string s1 o1;
           Part000.mkLightView 0.08
             (if dark then "#ffaa00" else "#f59e0b")%string s2 o2 ],
       Part000.mkBladeHooks (Some lo) (Some s1) (Some s2) (Some o1) (Some o2),
       k).
Proof.
  unfold Part000.ServerBlade_render, Part000.BlinkingLight_render, bind.
  repeat step_memo. do 6 eexists. reflexivity.
Qed.

(** A mounted blade of [part_000] renders the same two lights, with the
    same speeds and offsets, at every later render, and draws nothing. *)
Lemma link_blade_rerender_stable (dark : bool) (h : Part000.BladeHooks)
      (rng rng' : Oracle) (n m : nat) :
  let first := Part000.ServerBlade_render dark h rng n in
  Part000.ServerBlade_render dark (snd (fst first)) rng' m = (fst first, m).
Proof.
  destruct (link_blade_shape dark h rng n)
    as (lo & s1 & s2 & o1 & o2 & k & E).
  intros first. unfold first. rewrite E. reflexivity.
Qed.

Lemma link_blade_palette (dark : bool) (h : Part000.BladeHooks)
      (rng : Oracle) (n : nat) :
  let v := fst (fst (Part000.ServerBlade_render dark h rng n)) in
  Part000.greenColor v = (if dark then "#00ff88" else "#10b981")%string
  /\ Part000.amberColor v = (if dark then "#ffaa00" else "#f59e0b")%string
  /\ Part000.chassisColor v = (if dark then "#1a1a1a" else "#f1f5f9")%string
  /\ map Part000.lv_color (Part000.lights v)
     = [Part000.greenColor v; Part000.amberColor v].
Proof.
  destruct (link_blade_shape dark h rng n)
    as (lo & s1 & s2 & o1 & o2 & k & E).
  rewrite E. cbn. repeat split.
Qed.

(** Which status lights a blade of [part_001] shows is drawn at every
    render: the same mounted blade shows four lights under one oracle and
    three under another. *)
Lemma status_blade_lights_redrawn :
  let h := Part001.mkBladeHooks (Some true) (Some 1) (Some 2) (Some 3) None in
  List.length
    (Part001.lights
       (fst (fst (Part001.ServerBlade_render true h (fun _ => 0.9) 0%nat))))
  = 4%nat
  /\ List.length
       (Part001.lights
          (fst (fst (Part001.ServerBlade_render true h (fun _ => 0.5) 0%nat))))
     = 3%nat.
Proof.
  cbn. unfold bind, ret, Math_random. cbn.
  assert (A : gtb 0.9 0.8 = true) by (apply gtb_true_iff; lra).
  assert (B : gtb 0.5 0.8 = false) by (apply gtb_false_iff; lra).
  rewrite A, B. cbn. split; reflexivity.
Qed.

(** In the dark theme, the navigation labels, the class palette of the
    overlay and the color palette of the server blades are the same in any
    two renders from one view-state, whatever the memo cells hold and
    whatever [Math.random] returns. *)
Lemma dark_palette_is_stable :
  forall (s : ViewState) (h1 h2 : Part001.BladeHooks)
         (g1 g2 : Part000.BladeHooks) (rng1 rng2 : Oracle) (n1 n2 : nat),
    isDarkMode s = true ->
    let b1 := fst (fst (Part001.ServerBlade_render (isDarkMode s) h1 rng1 n1)) in
    let b2 := fst (fst (Part001.ServerBlade_render (isDarkMode s) h2 rng2 n2)) in
    let c1 := fst (fst (Part000.ServerBlade_render (isDarkMode s) g1 rng1 n1)) in
    let c2 := fst (fst (Part000.ServerBlade_render (isDarkMode s) g2 rng2 n2)) in
    map nb_label (ov_desktopNav (renderOverlay s)) = menuItems
    /\ ov_palette (renderOverlay s)
       = mkPalette "text-arch-100" "text-arch-500" "border-arch-100"
                   "border-arch-800" "bg-arch-900/80" "bg-arch-900"
    /\ ov_themeLabel (renderOverlay s) = "LIGHT MODE"%string
    /\ (Part001.lightColor b1, Part001.secondaryLightColor b1,
        Part001.chassisColor b1)
       = (Part001.lightColor b2, Part001.secondaryLightColor b2,
          Part001.chassisColor b2)
    /\ (Part001.lightColor b1, Part001.secondaryLightColor b1)
       = ("#00ff88", "#00ffff")%string
    /\ (Part000.greenColor c1, Part000.amberColor c1, Part000.chassisColor c1)
       = (Part000.greenColor c2, Part000.amberColor c2, Part000.chassisColor c2)
    /\ (Part000.greenColor c1, Part000.amberColor c1)
       = ("#00ff88", "#ffaa00")%string.
Proof.
  intros s h1 h2 g1 g2 rng1 rng2 n1 n2 Hdark b1 b2 c1 c2.
  destruct (status_blade_palette (isDarkMode s) h1 rng1 n1) as (A1 & A2 & A3 & _).
  destruct (status_blade_palette (isDarkMode s) h2 rng2 n2) as (B1 & B2 & B3 & _).
  destruct (link_blade_palette (isDarkMode s) g1 rng1 n1) as (C1 & C2 & C3 & _).
  destruct (link_blade_palette (isDarkMode s) g2 rng2 n2) as (D1 & D2 & D3 & _).
  fold b1 in A1, A2, A3. fold b2 in B1, B2, B3.
  fold c1 in C1, C2, C3. fold c2 in D1, D2, D3.
  rewrite A1, A2, A3, B1, B2, B3, C1, C2, C3, D1, D2, D3.
  unfold renderOverlay, UIOverlay, App.
  cbn [p_isDarkMode ov_desktopNav ov_palette ov_themeLabel].
  rewrite Hdark. cbn. repeat split.
Qed.

Lemma spike_draws :
  gtb (spike 0%nat) 0.2 = true /\ gtb (spike 1%nat) 0.8 = true
  /\ gtb (spike 6%nat) 0.8 = false.
Proof.
  unfold spike. cbn [Nat.eqb].
  repeat split; [apply gtb_true_iff | apply gtb_true_iff | apply gtb_false_iff];
    lra.
Qed.

(** C8, on the status lights of [part_001]: two renders of one blade from
    the same dark view-state differ. With [Math.random] returning 0.5, 0.9,
    0.5, 0.5, ... the mount render shows four lights, three in the primary
    and one in the secondary color, and the next render, which finds the
    memo cells the mount left, shows three: the fourth light is drawn again
    at every render. The palette itself is the same in both. *)
Theorem C8_fourth_status_light_redrawn :
  let first := Part001.ServerBlade_render true Part001.unmounted spike 0%nat in
  let second :=
    Part001.ServerBlade_render true (snd (fst first)) spike (snd first) in
  map Part001.lv_color (Part001.lights (fst (fst first)))
  = ["#00ff88"; "#00ff88"; "#00ff88"; "#00ffff"]%string
  /\ map Part001.lv_color (Part001.lights (fst (fst second)))
     = ["#00ff88"; "#00ff88"; "#00ff88"]%string
  /\ snd first = 6%nat
  /\ Part001.lights (fst (fst first)) <> Part001.lights (fst (fst second))
  /\ (Part001.lightColor (fst (fst first)),
      Part001.secondaryLightColor (fst (fst first)))
     = (Part001.lightColor (fst (fst second)),
        Part001.secondaryLightColor (fst (fst second))).
Proof.
  destruct spike_draws as (A & B & C).
  assert (F : Part001.ServerBlade_render true Part001.unmounted spike 0%nat
              = (Part001.mkBladeView "#1a1a1a" "#00ff88" "#00ffff"
                   [ Part001.mkLightView 0 "#00ff88" 4 (spike 2%nat * 100);
                     Part001.mkLightView 0.05 "#00ff88" 3 (spike 3%nat * 100);
                     Part001.mkLightView 0.10 "#00ff88" 6 (spike 4%nat * 100);
                     Part001.mkLightView 0.15 "#00ffff" 8 (spike 5%nat * 100) ],
                 Part001.mkBladeHooks (Some true) (Some (spike 2%nat * 100))
                   (Some (spike 3%nat * 100)) (Some (spike 4%nat * 100))
                   (Some (spike 5%nat * 100)),
                 6%nat)).
  { cbv [Part001.ServerBlade_render Part001.BlinkingLight_render
           Part001.unmounted bind useMemo Math_random ret fst snd
           Part001.hasLights_cell Part001.light0_cell Part001.light1_cell
           Part001.light2_cell Part001.light3_cell].
    rewrite A, B. reflexivity. }
  intros first second. unfold second, first. rewrite F. cbn [fst snd].
  assert (G : Part001.ServerBlade_render true
                (Part001.mkBladeHooks (Some true) (Some (spike 2%nat * 100))
                   (Some (spike 3%nat * 100)) (Some (spike 4%nat * 100))
                   (Some (spike 5%nat * 100))) spike 6%nat
              = (Part001.mkBladeView "#1a1a1a" "#00ff88" "#00ffff"
                   [ Part001.mkLightView 0 "#00ff88" 4 (spike 2%nat * 100);
                     Part001.mkLightView 0.05 "#00ff88" 3 (spike 3%nat * 100);
                     Part001.mkLightView 0.10 "#00ff88" 6 (spike 4%nat * 100) ],
                 Part001.mkBladeHooks (Some true) (Some (spike 2%nat * 100))
                   (Some (spike 3%nat * 100)) (Some (spike 4%nat * 100)) None,
                 7%nat)).
  { cbv [Part001.ServerBlade_render Part001.BlinkingLight_render
           bind useMemo Math_random ret fst snd
           Part001.hasLights_cell Part001.light0_cell Part001.light1_cell
           Part001.light2_cell Part001.light3_cell].
    rewrite C. reflexivity. }
  rewrite G. cbn [fst snd Part001.lights Part001.lightColor
                  Part001.secondaryLightColor map Part001.lv_color].
  repeat split. intros E. apply (f_equal (@List.length _)) in E.
  discriminate E.
Qed.

(** * Further properties *)

(** ** Frames overwrite *)

Lemma runFrames_snoc {S : Type} (frame : R -> S -> S) (ts : list R) (t : R)
      (st : S) :
  runFrames frame (ts ++ [t]) st = frame t (runFrames frame ts st).
Proof. unfold runFrames. rewrite fold_left_app. reflexivity. Qed.

Lemma runFrames_last {S : Type} (frame : R -> S -> S) :
  (forall (t1 t2 : R) (st : S), frame t2 (frame t1 st) = frame t2 st) ->
  forall (ts : list R) (t : R) (st : S),
    runFrames frame (ts ++ [t]) st = frame t st.
Proof.
  intros absorb ts t. induction ts as [| t0 rest IH]; intros st.
  - reflexivity.
  - change (runFrames frame ((t0 :: rest) ++ [t]) st)
      with (runFrames frame (rest ++ [t]) (frame t0 st)).
    rewrite IH. apply absorb.
Qed.

Lemma link_light_frame_absorbs (color : Color) (speed : R) (isMobile : bool)
      (offset t1 t2 : R) (st : Part000.Refs) :
  Part000.BlinkingLight_useFrame color speed isMobile offset t2
    (Part000.BlinkingLight_useFrame color speed isMobile offset t1 st)
  = Part000.BlinkingLight_useFrame color speed isMobile offset t2 st.
Proof.
  destruct st as [[mesh |] l]; [| reflexivity].
  destruct mesh as [pos scl [cls op c]].
  unfold Part000.BlinkingLight_useFrame. cbn [Part000.ref Part000.lightRef].
  cbn [mesh_position mesh_scale mesh_material].
  f_equal.
  - unfold Part000.updateMaterial, isMeshBasicMaterial. cbn [mat_class].
    destruct cls; reflexivity.
  - destruct l as [l |]; [| reflexivity].
    destruct isMobile; reflexivity.
Qed.

(** X1: after any run of frames of a link light, the refs are what the
    last frame alone makes of the starting refs: scale, opacity, color and
    light intensity are overwritten, never accumulated (the 1.3
    brightening does not compound). *)
Theorem X1_link_light_last_frame_wins :
  forall (color : Color) (speed : R) (isMobile : bool) (offset : R)
         (ts : list R) (t : R) (st : Part000.Refs),
    runFrames (Part000.BlinkingLight_useFrame color speed isMobile offset)
              (ts ++ [t]) st
    = Part000.BlinkingLight_useFrame color speed isMobile offset t st.
Proof.
  intros color speed isMobile offset.
  apply runFrames_last. intros t1 t2 st. apply link_light_frame_absorbs.
Qed.

Lemma pulse_frame_absorbs (a b : Vector3) (speed offset t1 t2 : R)
      (r : option Mesh) :
  PulsePacket_useFrame a b speed offset t2
    (PulsePacket_useFrame a b speed offset t1 r)
  = PulsePacket_useFrame a b speed offset t2 r.
Proof.
  destruct r as [[pos scl [cls op c]] |]; [| reflexivity].
  unfold PulsePacket_useFrame, setOpacity, isMeshBasicMaterial.
  cbn [mesh_position mesh_scale mesh_material mat_class mat_color].
  destruct cls; reflexivity.
Qed.

(** X2: after any run of frames of a pulse packet, or of a status light of
    [part_001], the mesh is what the last frame alone makes of the
    starting mesh. *)
Theorem X2_pulse_last_frame_wins :
  forall (a b : Vector3) (speed offset : R) (ts : list R) (t : R)
         (r : option Mesh),
    runFrames (PulsePacket_useFrame a b speed offset) (ts ++ [t]) r
    = PulsePacket_useFrame a b speed offset t r
    /\ runFrames (Part001.BlinkingLight_useFrame speed offset) (ts ++ [t]) r
       = Part001.BlinkingLight_useFrame speed offset t r.
Proof.
  intros a b speed offset ts t r. split.
  - apply runFrames_last. intros. apply pulse_frame_absorbs.
  - apply runFrames_last. intros t1 t2 st.
    destruct st as [[pos scl [cls op c]] |]; [| reflexivity].
    unfold Part001.BlinkingLight_useFrame, setOpacity, isMeshBasicMaterial.
    cbn [mesh_position mesh_scale mesh_material mat_class mat_color].
    destruct cls; reflexivity.
Qed.

(** ** Blink period *)

Lemma blinkRate_pos (s : R) : 0 < s -> 0 < Part000.blinkRate s.
Proof. intros H. unfold Part000.blinkRate. lra. Qed.

(** X3: for a speed s > 0 a link light blinks with period 2 PI / (s (1.5 +
    0.2 s)): it is on at t exactly when it is on a whole number of periods
    later, and a light that is on at t is off half a period later. *)
Theorem X3_link_light_period :
  forall (t o s : R) (k : nat), 0 < s ->
    let period := 2 * PI / (s * Part000.blinkRate s) in
    Part000.isOn (t + INR k * period) o s = Part000.isOn t o s
    /\ (Part000.isOn t o s = true ->
        Part000.isOn (t + period / 2) o s = false).
Proof.
  intros t o s k Hs period.
  pose proof (blinkRate_pos s Hs) as Hr.
  assert (Hne : s * Part000.blinkRate s <> 0) by nra.
  split.
  - unfold Part000.isOn. f_equal.
    replace ((t + INR k * period) * s + o) with
      ((t * s + o) + INR k * period * s) by ring.
    replace (((t * s + o) + INR k * period * s) * Part000.blinkRate s)
      with ((t * s + o) * Part000.blinkRate s + 2 * INR k * PI)
      by (unfold period; field; split; lra).
    apply sin_period.
  - unfold Part000.isOn. rewrite gtb_true_iff, gtb_false_iff. intros Hon.
    replace (((t + period / 2) * s + o) * Part000.blinkRate s)
      with ((t * s + o) * Part000.blinkRate s + PI)
      by (unfold period; field; split; lra).
    rewrite neg_sin. lra.
Qed.

Lemma X3_link_light_period_witness :
  0 < 1 /\ Part000.isOn (0 + INR 3 * (2 * PI / (1 * Part000.blinkRate 1))) 0 1
           = Part000.isOn 0 0 1.
Proof.
  split; [lra |].
  apply (X3_link_light_period 0 0 1 3). lra.
Defined.

(** ** A mounted link light *)

Lemma mounted_link_light_after (color : Color) (speed : R) (isMobile : bool)
      (offset : R) (ts : list R) (t : R) :
  runFrames (Part000.BlinkingLight_useFrame color speed isMobile offset)
            (ts ++ [t]) (Part000_BlinkingLight_mount color isMobile)
  = Part000.mkRefs
      (Some (mkMesh origin
               (setScalar (Part000.scale (Part000.isOn t offset speed)))
               (mkMaterial MeshBasicMaterial
                  (Part000.intensity (Part000.isOn t offset speed))
                  (if Part000.isOn t offset speed
                   then multiplyScalar color 1.3 else color))))
      (if isMobile then None
       else Some (mkPointLight
                    (Part000.lightLevel (Part000.isOn t offset speed)))).
Proof.
  rewrite (runFrames_last _ (link_light_frame_absorbs color speed isMobile offset)).
  destruct isMobile; reflexivity.
Qed.

(** X4: from its mount on and through any frames, a link light has a point
    light exactly off mobile, and its mesh stays at the origin with a
    basic material whose opacity is 1 or 0.15 and whose color is the prop
    or its 1.3 multiple; whenever the opacity is 0.15 the scale is 0.9,
    the color is the prop and, off mobile, the light intensity is 0.15. *)
Theorem X4_mounted_link_light_invariant :
  forall (color : Color) (speed : R) (isMobile : bool) (offset : R)
         (ts : list R),
    let st := runFrames
                (Part000.BlinkingLight_useFrame color speed isMobile offset)
                ts (Part000_BlinkingLight_mount color isMobile) in
    (Part000.lightRef st = None <-> isMobile = true)
    /\ exists (scl : Vector3) (op : R) (c : Color),
         Part000.ref st
         = Some (mkMesh origin scl (mkMaterial MeshBasicMaterial op c))
         /\ (op = 1 \/ op = 0.15)
         /\ (c = color \/ c = multiplyScalar color 1.3)
         /\ (op = 0.15 -> scl = setScalar 0.9 /\ c = color
                          /\ (isMobile = false ->
                              Part000.lightRef st = Some (mkPointLight 0.15))).
Proof.
  intros color speed isMobile offset ts st. subst st.
  destruct ts as [| t ts] using rev_ind.
  - cbn. split.
    + destruct isMobile; cbn; split; congruence.
    + exists (setScalar 1), 1, color. repeat split; auto; lra.
  - rewrite mounted_link_light_after. cbn [Part000.ref Part000.lightRef].
    split.
    + destruct isMobile; split; congruence.
    + do 3 eexists. split; [reflexivity |].
      destruct (Part000.isOn t offset speed); cbn.
      * repeat split; auto; lra.
      * repeat split; auto. intros ->. reflexivity.
Qed.

(** ** Sway *)

(** X5: with the group mounted, the frame of [Composition] sets the
    rotation about y to sin(0.1 t) * 0.05, whatever it was; that value
    stays within 0.05 radians either way, repeats every 20 PI seconds and
    is odd in time. *)
Theorem X5_sway_bounded_periodic :
  forall (t : R) (g : Group) (k : nat),
    Composition_useFrame t (Some g) = Some (mkGroup (sin (0.1 * t) * 0.05))
    /\ -0.05 <= sin (0.1 * t) * 0.05 <= 0.05
    /\ Composition_useFrame (t + INR k * (20 * PI)) (Some g)
       = Composition_useFrame t (Some g)
    /\ Composition_useFrame (- t) (Some g)
       = Some (mkGroup (- (sin (0.1 * t) * 0.05))).
Proof.
  intros t g k.
  destruct (SIN_bound (0.1 * t)) as [L U].
  split; [| split; [lra | split]].
  - cbn. replace (t * 0.1) with (0.1 * t) by ring. reflexivity.
  - cbn.
    replace ((t + INR k * (20 * PI)) * 0.1) with (t * 0.1 + 2 * INR k * PI)
      by lra.
    rewrite sin_period. reflexivity.
  - cbn.
    replace (- t * 0.1) with (- (0.1 * t)) by lra.
    rewrite sin_neg. do 2 f_equal. lra.
Qed.

(** ** Floor pulses *)

Lemma pulsePackets_props (c : string) (rng : Oracle) :
  (forall k : nat, 0 <= rng k < 1) ->
  forall (ps : list (Vector3 * Vector3)) (n : nat),
    Forall (fun p => 0.5 <= speed p < 1 /\ 0 <= offset p < 10 /\ color p = c)
           (fst (pulsePackets c ps rng n))
    /\ map (fun p => (pathStart p, pathEnd p)) (fst (pulsePackets c ps rng n))
       = ps.
Proof.
  intros Hrng ps. induction ps as [| p rest IH]; intros n.
  - split; [constructor | reflexivity].
  - rewrite pulsePackets_cons. cbn [fst map pathStart pathEnd].
    destruct (IH (S (S n))) as [IHf IHm]. split.
    + constructor; [| exact IHf]. cbn.
      pose proof (Hrng n). pose proof (Hrng (S n)).
      repeat split; lra.
    + rewrite IHm. destruct p; reflexivity.
Qed.

Lemma paths_shape (a b : Vector3) :
  In (a, b) paths ->
  vy a = -1.24 /\ vz a = 6 /\ vy b = -1.24 /\ vz b = 1
  /\ -0.2 <= vx a - vx b <= 0.2
  /\ exists r : Vector3, In r rackPositions /\ vx b = vx r.
Proof.
  unfold paths, pathsTo. cbn [map app].
  intros H. repeat (destruct H as [H | H]; [inversion H; subst; clear H |]);
    try contradiction; cbn;
    (repeat split; try lra);
    [ exists (mkVector3 0 0.5 0) | exists (mkVector3 0 0.5 0)
    | exists (mkVector3 0 0.5 0)
    | exists (mkVector3 (-1.25) 0.5 0) | exists (mkVector3 (-1.25) 0.5 0)
    | exists (mkVector3 (-1.25) 0.5 0)
    | exists (mkVector3 1.25 0.5 0) | exists (mkVector3 1.25 0.5 0)
    | exists (mkVector3 1.25 0.5 0) ];
    (split; [cbn; auto | reflexivity]).
Qed.

(** X6: when [Math.random] returns values in [0,1), a render of
    [CircuitFloor] draws 18 numbers and yields nine packets, each with a
    speed in [0.5,1), an offset in [0,10), the pulse color of the theme
    and one of the memoised paths. *)
Theorem X6_pulse_props_in_range :
  forall (dark : bool) (rng : Oracle) (n : nat),
    (forall k : nat, 0 <= rng k < 1) ->
    let ps := fst (CircuitFloor_render dark rng n) in
    List.length ps = 9%nat
    /\ snd (CircuitFloor_render dark rng n) = (n + 18)%nat
    /\ Forall (fun p =>
                 0.5 <= speed p < 1 /\ 0 <= offset p < 10
                 /\ color p = (if dark then "#00ff88" else "#10b981")%string
                 /\ In (pathStart p, pathEnd p) paths)
              ps.
Proof.
  intros dark rng n Hrng ps. unfold ps, CircuitFloor_render.
  destruct (pulsePackets_props (if dark then "#00ff88" else "#10b981")%string
              rng Hrng paths n) as [Hf Hm].
  split; [| split].
  - rewrite <- (length_map
                  (fun p => (pathStart p, pathEnd p))), Hm. reflexivity.
  - rewrite (proj2 (pulsePackets_offsets _ paths rng n)). reflexivity.
  - rewrite Forall_forall in *. intros p Hp.
    destruct (Hf p Hp) as (A & B & C). repeat split; try tauto.
    rewrite <- Hm. apply (in_map (fun p => (pathStart p, pathEnd p))). exact Hp.
Qed.

Lemma X6_pulse_props_in_range_witness :
  (forall k : nat, 0 <= (fun _ : nat => 0.5) k < 1)
  /\ List.length (fst (CircuitFloor_render true (fun _ => 0.5) 0%nat)) = 9%nat.
Proof.
  assert (H : forall k : nat, 0 <= (fun _ : nat => 0.5) k < 1) by (intros; lra).
  split; [exact H |].
  apply (X6_pulse_props_in_range true (fun _ => 0.5) 0%nat H).
Defined.

Lemma floor_packet_facts (dark : bool) (rng : Oracle) (n : nat)
      (p : PulsePacketProps) :
  (forall k : nat, 0 <= rng k < 1) ->
  In p (fst (CircuitFloor_render dark rng n)) ->
  0.5 <= speed p < 1 /\ 0 <= offset p < 10
  /\ In (pathStart p, pathEnd p) paths.
Proof.
  intros Hrng Hp. unfold CircuitFloor_render in Hp.
  destruct (pulsePackets_props (if dark then "#00ff88" else "#10b981")%string
              rng Hrng paths n) as [Hf Hm].
  rewrite Forall_forall in Hf. destruct (Hf p Hp) as (A & B & _).
  repeat split; try tauto.
  rewrite <- Hm. apply (in_map (fun q => (pathStart q, pathEnd q))). exact Hp.
Qed.

Lemma pulse_opacity_range (p : R) : 0 <= p < 1 -> 0 < pulse_opacity p <= 1.
Proof.
  intros [H0 H1]. unfold pulse_opacity, gtb.
  destruct (Rlt_dec 0.8 p); lra.
Qed.

(** X7: at any elapsed time t >= 0, a packet rendered by [CircuitFloor]
    (with [Math.random] in [0,1)) lies on the floor line y = -1.24, at z =
    6 - 5 progress in (1,6], within 0.2 of the x of one of the three
    racks, with an opacity in (0,1]. *)
Theorem X7_pulse_stays_on_its_lane :
  forall (dark : bool) (rng : Oracle) (n : nat) (p : PulsePacketProps)
         (c : Color) (t : R),
    (forall k : nat, 0 <= rng k < 1) ->
    In p (fst (CircuitFloor_render dark rng n)) ->
    0 <= t ->
    exists (pos : Vector3) (op : R) (rack : Vector3),
      PulsePacket_render p t (PulsePacket_mount c)
      = Some (mkMesh pos (setScalar 1) (mkMaterial MeshBasicMaterial op c))
      /\ vy pos = -1.24
      /\ vz pos = 6 - 5 * pulse_progress t (offset p) (speed p)
      /\ 1 < vz pos <= 6
      /\ In rack rackPositions
      /\ -0.2 <= vx pos - vx rack <= 0.2
      /\ 0 < op <= 1.
Proof.
  intros dark rng n p c t Hrng Hp Ht.
  destruct (floor_packet_facts dark rng n p Hrng Hp) as (Hs & Ho & Hpath).
  destruct (paths_shape _ _ Hpath) as (Ya & Za & Yb & Zb & Hx & rack & Hr & Hxr).
  assert (Hphase : 0 <= t * speed p + offset p) by nra.
  pose proof (js_rem_1_range _ Hphase) as Hpr.
  fold (pulse_progress t (offset p) (speed p)) in Hpr.
  pose proof (pulse_opacity_range _ Hpr) as Hop.
  exists (lerpVectors (pathStart p) (pathEnd p)
            (pulse_progress t (offset p) (speed p))),
         (pulse_opacity (pulse_progress t (offset p) (speed p))), rack.
  split; [reflexivity |].
  set (pr := pulse_progress t (offset p) (speed p)) in *.
  cbn [vx vy vz lerpVectors].
  rewrite Ya, Za, Yb, Zb, <- Hxr.
  repeat split; try lra; try nra; try exact Hr.
Qed.

Lemma X7_pulse_stays_on_its_lane_witness :
  let p := mkPulsePacketProps (mkVector3 (0 + (0 * 0.2 - 0.2)) (-1.24) 6)
                              (mkVector3 0 (-1.24) 1) "#00ff88"
                              (0.5 + 0.5 * 0.5) (0.5 * 10) in
  (forall k : nat, 0 <= (fun _ : nat => 0.5) k < 1)
  /\ In p (fst (CircuitFloor_render true (fun _ => 0.5) 0%nat))
  /\ 0 <= 2
  /\ exists (pos : Vector3) (op : R),
       PulsePacket_render p 2 (PulsePacket_mount (mkColor 0 1 0.5))
       = Some (mkMesh pos (setScalar 1)
                 (mkMaterial MeshBasicMaterial op (mkColor 0 1 0.5)))
       /\ vy pos = -1.24.
Proof.
  intros p.
  assert (H : forall k : nat, 0 <= (fun _ : nat => 0.5) k < 1) by (intros; lra).
  assert (Hin : In p (fst (CircuitFloor_render true (fun _ => 0.5) 0%nat))).
  { unfold CircuitFloor_render, paths, pathsTo. cbn [map app].
    rewrite pulsePackets_cons. left. reflexivity. }
  assert (H2 : 0 <= 2) by lra.
  split; [exact H | split; [exact Hin | split; [exact H2 |]]].
  destruct (X7_pulse_stays_on_its_lane true (fun _ => 0.5) 0%nat p
              (mkColor 0 1 0.5) 2 H Hin H2)
    as (pos & op & rack & Eq & Hy & _).
  exists pos, op. split; [exact Eq | exact Hy].
Defined.

(** ** Rack layout *)

Lemma blades_In (h y : R) :
  In y (blades h) <->
  exists i : nat, (i < 20)%nat /\ y = - h / 2 + 0.2 + INR i * 0.15.
Proof.
  unfold blades. rewrite in_map_iff. split.
  - intros [i [E Hi]]. apply in_seq in Hi. exists i. split; [lia | auto].
  - intros [i [Hi E]]. exists i. split; [auto | apply in_seq; lia].
Qed.

(** X8: a rack has 20 blades 0.15 apart, more than the thickness of a
    blade, whatever its height; they all lie within the frame exactly when
    the height is at least 3.1, which the rack's 3.5 is. *)
Theorem X8_blades_fit_the_rack :
  forall h : R,
    List.length (blades h) = 20%nat
    /\ (forall i : nat, (i < 19)%nat ->
          nth (S i) (blades h) 0 - nth i (blades h) 0 = 0.15
          /\ blade_thickness < 0.15)
    /\ ((forall y : R, In y (blades h) ->
           - h / 2 <= y - blade_thickness / 2
           /\ y + blade_thickness / 2 <= h / 2)
        <-> 3.1 <= h)
    /\ 3.1 <= rack_height.
Proof.
  intros h. split; [reflexivity | split; [| split]].
  - intros i Hi. split; [| unfold blade_thickness; lra].
    unfold blades. cbn [seq map].
    do 19 (destruct i as [| i]; [cbn [nth]; simpl INR; lra |]). lia.
  - unfold blade_thickness. split.
    + intros H.
      assert (Hin : In (- h / 2 + 0.2 + INR 19 * 0.15) (blades h))
        by (apply blades_In; exists 19%nat; split; [lia | reflexivity]).
      destruct (H _ Hin) as [_ U]. simpl in U. lra.
    + intros Hh y Hy. apply blades_In in Hy. destruct Hy as [i [Hi ->]].
      assert (0 <= INR i) by apply pos_INR.
      assert (INR i <= 19).
      { replace 19 with (INR 19) by (simpl; lra). apply le_INR. lia. }
      lra.
  - unfold rack_height. lra.
Qed.

(** ** Blades across re-renders *)

Lemma link_blade_mount (dark : bool) (rng : Oracle) (n : nat) :
  Part000.ServerBlade_render dark Part000.unmounted rng n
  = (Part000.mkBladeView
       (if dark then "#1a1a1a" else "#f1f5f9")%string
       (if dark then "#00ff88" else "#10b981")%string
       (if dark then "#ffaa00" else "#f59e0b")%string
       [ Part000.mkLightView 0
           (if dark then "#00ff88" else "#10b981")%string
           (0.8 + rng (S n) * 0.4) (rng (S (S (S n))) * 100);
         Part000.mkLightView 0.08
           (if dark then "#ffaa00" else "#f59e0b")%string
           (0.8 + rng (S (S n)) * 0.4) (rng (S (S (S (S n)))) * 100) ],
     Part000.mkBladeHooks (Some (rng n * 100))
       (Some (0.8 + rng (S n) * 0.4)) (Some (0.8 + rng (S (S n)) * 0.4))
       (Some (rng (S (S (S n))) * 100)) (Some (rng (S (S (S (S n)))) * 100)),
     S (S (S (S (S n))))).
Proof. reflexivity. Qed.

(** X9: a re-render of a mounted [part_000] blade under another theme
    draws no random number and keeps the speed and offset of both link
    lights while their colors follow the new theme; the speeds lie in
    [0.8,1.2), the offsets in [0,100) and the blink rates in [1.66,1.74). *)
Theorem X9_theme_change_keeps_link_light_timing :
  forall (dark dark' : bool) (rng rng' : Oracle) (n m : nat),
    (forall k : nat, 0 <= rng k < 1) ->
    let first := Part000.ServerBlade_render dark Part000.unmounted rng n in
    let second :=
      Part000.ServerBlade_render dark' (snd (fst first)) rng' m in
    let timing := map (fun l => (Part000.lv_speed l, Part000.lv_offset l)) in
    timing (Part000.lights (fst (fst second)))
    = timing (Part000.lights (fst (fst first)))
    /\ snd second = m
    /\ map Part000.lv_color (Part000.lights (fst (fst second)))
       = [ (if dark' then "#00ff88" else "#10b981")%string;
           (if dark' then "#ffaa00" else "#f59e0b")%string ]
    /\ Forall (fun l =>
                 0.8 <= Part000.lv_speed l < 1.2
                 /\ 0 <= Part000.lv_offset l < 100
                 /\ 1.66 <= Part000.blinkRate (Part000.lv_speed l) < 1.74)
              (Part000.lights (fst (fst first))).
Proof.
  intros dark dark' rng rng' n m Hrng first second timing.
  unfold second, first. rewrite link_blade_mount.
  cbn [fst snd]. split; [reflexivity | split; [reflexivity | split]].
  - reflexivity.
  - pose proof (Hrng (S n)). pose proof (Hrng (S (S n))).
    pose proof (Hrng (S (S (S n)))). pose proof (Hrng (S (S (S (S n))))).
    unfold Part000.blinkRate.
    repeat (apply Forall_cons; [cbn; repeat split; lra |]). apply Forall_nil.
Qed.

Lemma X9_theme_change_keeps_link_light_timing_witness :
  (forall k : nat, 0 <= (fun _ : nat => 0.5) k < 1)
  /\ snd (Part000.ServerBlade_render false
            (snd (fst (Part000.ServerBlade_render true Part000.unmounted
                         (fun _ => 0.5) 0%nat)))
            (fun _ => 0.25) 7%nat) = 7%nat.
Proof.
  assert (H : forall k : nat, 0 <= (fun _ : nat => 0.5) k < 1) by (intros; lra).
  split; [exact H |].
  apply (X9_theme_change_keeps_link_light_timing true false (fun _ => 0.5)
           (fun _ => 0.25) 0%nat 7%nat H).
Defined.

Lemma status_blade_first (dark : bool) (h : Part001.BladeHooks)
      (rng : Oracle) (n : nat) :
  exists (v : Part001.BladeView) (h' : Part001.BladeHooks) (k : nat),
    Part001.ServerBlade_render dark h rng n = (v, h', k)
    /\ ((Part001.lights v = []
         /\ h' = Part001.mkBladeHooks (Some false) None None None None)
        \/ (exists (o0 o1 o2 : R) (rest : list R) (c3 : option R),
               map Part001.lv_offset (Part001.lights v)
               = o0 :: o1 :: o2 :: rest
               /\ (List.length rest <= 1)%nat
               /\ h' = Part001.mkBladeHooks (Some true) (Some o0) (Some o1)
                                            (Some o2) c3)).
Proof.
  unfold Part001.ServerBlade_render, Part001.BlinkingLight_render, bind.
  step_memo. cbn [fst snd]. destruct v.
  - unfold Math_random at 1.
    repeat step_memo. cbn [fst snd].
    destruct (gtb (rng k) 0.8).
    + step_memo. cbn [fst snd ret].
      do 3 eexists. split; [reflexivity |]. right.
      exists v, v0, v1, [v2], (Some v2). cbn. repeat split; auto.
    + cbn [fst snd ret].
      do 3 eexists. split; [reflexivity |]. right.
      exists v, v0, v1, [], None. cbn. repeat split; auto.
  - do 3 eexists. split; [reflexivity |]. left. cbn. split; reflexivity.
Qed.

Lemma status_blade_dark_again (dark : bool) (c0 c1 c2 c3 : option R)
      (rng : Oracle) (n : nat) :
  Part001.lights
    (fst (fst (Part001.ServerBlade_render dark
                 (Part001.mkBladeHooks (Some false) c0 c1 c2 c3) rng n)))
  = [].
Proof. reflexivity. Qed.

Lemma status_blade_lit_again (dark : bool) (o0 o1 o2 : R) (c3 : option R)
      (rng : Oracle) (n : nat) :
  exists rest : list R,
    map Part001.lv_offset
        (Part001.lights
           (fst (fst (Part001.ServerBlade_render dark
                        (Part001.mkBladeHooks (Some true) (Some o0) (Some o1)
                           (Some o2) c3) rng n))))
    = o0 :: o1 :: o2 :: rest
    /\ (List.length rest <= 1)%nat.
Proof.
  unfold Part001.ServerBlade_render, Part001.BlinkingLight_render, bind.
  cbn [useMemo Part001.hasLights_cell Part001.light0_cell Part001.light1_cell
       Part001.light2_cell Part001.light3_cell ret fst snd].
  unfold Math_random at 1.
  destruct (gtb (rng n) 0.8).
  - step_memo. cbn. exists [v]. split; [reflexivity | auto].
  - cbn. exists []. split; [reflexivity | auto].
Qed.

(** X10: across a re-render, a [part_001] blade that showed no status
    light shows none again, and one that showed lights shows three or four
    both times with the same offsets for the first three; only the fourth
    comes and goes. *)
Theorem X10_status_blade_keeps_its_lights :
  forall (dark dark' : bool) (h : Part001.BladeHooks) (rng rng' : Oracle)
         (n m : nat),
    let first := Part001.ServerBlade_render dark h rng n in
    let second := Part001.ServerBlade_render dark' (snd (fst first)) rng' m in
    let offsets r := map Part001.lv_offset (Part001.lights (fst (fst r))) in
    (offsets first = [] /\ offsets second = [])
    \/ (exists (o0 o1 o2 : R) (rest1 rest2 : list R),
           offsets first = o0 :: o1 :: o2 :: rest1
           /\ offsets second = o0 :: o1 :: o2 :: rest2
           /\ (List.length rest1 <= 1)%nat /\ (List.length rest2 <= 1)%nat).
Proof.
  intros dark dark' h rng rng' n m first second offsets.
  unfold offsets, second, first.
  destruct (status_blade_first dark h rng n)
    as (v & h' & k & Eq & [[E H] | (o0 & o1 & o2 & rest1 & c3 & E & L & H)]);
    rewrite Eq; cbn [fst snd]; rewrite H.
  - left. rewrite E, status_blade_dark_again. split; reflexivity.
  - right. destruct (status_blade_lit_again dark' o0 o1 o2 c3 rng' m)
      as (rest2 & E2 & L2).
    exists o0, o1, o2, rest1, rest2. auto.
Qed.

Lemma rerenders_keep_cell (v : R) (rs : list (Oracle * nat)) :
  fold_left
    (fun acc r => fst (Part000.BlinkingLight_render (snd acc) (fst r) (snd r)))
    rs (v, Some v)
  = (v, Some v).
Proof.
  induction rs as [| r rest IH]; [reflexivity |].
  cbn [fold_left snd]. exact IH.
Qed.

(** X11: whatever re-renders follow its mount, a [BlinkingLight] keeps the
    offset of the mount render, 100 times its first draw, which lies in
    [0,100). *)
Theorem X11_blinking_light_offset_for_life :
  forall (rng : Oracle) (n : nat) (rs : list (Oracle * nat)),
    (forall k : nat, 0 <= rng k < 1) ->
    offsetAfter (rng, n) rs = rng n * 100
    /\ 0 <= offsetAfter (rng, n) rs < 100.
Proof.
  intros rng n rs Hrng.
  assert (E : offsetAfter (rng, n) rs = rng n * 100).
  { unfold offsetAfter. cbn [fst snd].
    change (fst (Part000.BlinkingLight_render None rng n))
      with (rng n * 100, Some (rng n * 100)).
    rewrite rerenders_keep_cell. reflexivity. }
  rewrite E. pose proof (Hrng n). split; [reflexivity | lra].
Qed.

Lemma X11_blinking_light_offset_for_life_witness :
  (forall k : nat, 0 <= (fun _ : nat => 0.5) k < 1)
  /\ offsetAfter (fun _ => 0.5, 0%nat) [(ramp, 3%nat); (ramp, 4%nat)]
     = 0.5 * 100.
Proof.
  assert (H : forall k : nat, 0 <= (fun _ : nat => 0.5) k < 1) by (intros; lra).
  split; [exact H |].
  apply (X11_blinking_light_offset_for_life (fun _ => 0.5) 0%nat
           [(ramp, 3%nat); (ramp, 4%nat)] H).
Defined.

(** ** The overlay as a state machine *)

Lemma isMenuItem_lower (item : string) :
  isMenuItem item = true -> In (toLowerCase item) sections.
Proof.
  unfold isMenuItem, menuItems. cbn [existsb]. rewrite !orb_true_iff.
  intros [H | [H | [H | [H | H]]]]; try discriminate;
    apply String.eqb_eq in H; subst; cbn; auto.
Qed.

Lemma step_keeps_section (e : Event) (s s' : ViewState) :
  In (activeSection s) sections -> step e s = Some s' ->
  In (activeSection s') sections.
Proof.
  intros Hs. destruct e as [| item | | item |]; unfold step.
  - intros [= <-]. exact Hs.
  - destruct (isMenuItem item) eqn:Hi; [| discriminate].
    intros [= <-]. apply isMenuItem_lower, Hi.
  - intros [= <-]. exact Hs.
  - destruct (mobileMenuOpen s); [| discriminate].
    destruct (isMenuItem item) eqn:Hi; [| discriminate].
    intros [= <-]. apply isMenuItem_lower, Hi.
  - destruct (mobileMenuOpen s); [| discriminate].
    intros [= <-]. exact Hs.
Qed.

Lemma run_keeps_section (es : list Event) :
  forall s s' : ViewState,
    In (activeSection s) sections -> run es s = Some s' ->
    In (activeSection s') sections.
Proof.
  induction es as [| e rest IH]; intros s s' Hs; cbn.
  - intros [= <-]. exact Hs.
  - destruct (step e s) as [s1 |] eqn:E; [| discriminate].
    apply IH. apply (step_keeps_section e s s1 Hs E).
Qed.

(** X12: in every view-state reached from the initial one by clicks the
    overlay offers, the section is the lowercased label of one menu item;
    the main area renders exactly the block of that section (the hero for
    home, the placeholders for projects and tools, the card for contact);
    and of the rendered desktop buttons exactly that item's carries the
    active class (primary text, bottom border, full opacity) while the
    others carry the secondary text class, which differs from it. *)
Theorem X12_one_section_shown :
  forall (es : list Event) (s : ViewState),
    run es initialState = Some s ->
    exists (item : string) (block : ContentBlock),
      In (item, block)
         [ ("HOME", HomeHero); ("PROJECTS", ProjectsPlaceholder);
           ("TOOLS", ToolsPlaceholder); ("CONTACT", ContactCard) ]%string
      /\ activeSection s = toLowerCase item
      /\ mainContent (activeSection s) = [block]
      /\ (let pal := palette (isDarkMode s) in
          let active :=
            (textPrimary pal ++ " border-b " ++ borderPrimary pal
             ++ " opacity-100")%string in
          ov_desktopNav (renderOverlay s)
          = map (fun label =>
                   mkNavButton label
                     (if String.eqb label item then active
                      else textSecondary pal))
                menuItems
          /\ active <> textSecondary pal).
Proof.
  intros es s Hrun.
  assert (Hs : In (activeSection s) sections).
  { apply (run_keeps_section es initialState s); [cbn; auto | exact Hrun]. }
  destruct s as [sec dark menu]. cbn [activeSection isDarkMode] in *.
  destruct Hs as [H | [H | [H | [H | []]]]]; subst sec;
    [ exists "HOME"%string, HomeHero
    | exists "PROJECTS"%string, ProjectsPlaceholder
    | exists "TOOLS"%string, ToolsPlaceholder
    | exists "CONTACT"%string, ContactCard ];
    (split; [cbn; auto 6 |]);
    (split; [reflexivity |]);
    (split; [reflexivity |]);
    destruct dark; (split; [reflexivity | discriminate]).
Qed.

Lemma X12_one_section_shown_witness :
  run [ClickHamburger; ClickMobileEntry "TOOLS"] initialState
  = Some (mkViewState "tools" true false)
  /\ exists (item : string) (block : ContentBlock),
       activeSection (mkViewState "tools" true false) = toLowerCase item
       /\ mainContent (activeSection (mkViewState "tools" true false))
          = [block].
Proof.
  assert (H : run [ClickHamburger; ClickMobileEntry "TOOLS"] initialState
              = Some (mkViewState "tools" true false)) by reflexivity.
  split; [exact H |].
  destruct (X12_one_section_shown _ _ H) as (item & block & _ & A & B & _).
  exists item, block. split; [exact A | exact B].
Defined.

(** X13: of two navigation clicks the later wins and a repeated one
    changes nothing; navigation, the theme toggle and the hamburger act on
    separate cells and commute; two hamburger clicks restore the state. *)
Theorem X13_clicks_compose :
  forall (a b : string) (s : ViewState),
    isMenuItem a = true -> isMenuItem b = true ->
    run [ClickNav a; ClickNav b] s = run [ClickNav b] s
    /\ run [ClickNav a; ClickNav a] s = run [ClickNav a] s
    /\ run [ClickNav a; ClickThemeToggle] s = run [ClickThemeToggle; ClickNav a] s
    /\ run [ClickNav a; ClickHamburger] s = run [ClickHamburger; ClickNav a] s
    /\ run [ClickThemeToggle; ClickHamburger] s
       = run [ClickHamburger; ClickThemeToggle] s
    /\ run [ClickHamburger; ClickHamburger] s = Some s
    /\ run [ClickNav a] s
       = Some (mkViewState (toLowerCase a) (isDarkMode s) (mobileMenuOpen s)).
Proof.
  intros a b [sec dark menu] Ha Hb.
  cbn [run step]. rewrite ?Ha, ?Hb. cbn [run step]. rewrite ?Ha, ?Hb.
  unfold hamburger_onClick, setActiveSection, setIsDarkMode, setMobileMenuOpen.
  cbn. rewrite ?negb_involutive. repeat split.
Qed.

Lemma X13_clicks_compose_witness :
  (isMenuItem "TOOLS" = true /\ isMenuItem "CONTACT" = true)
  /\ run [ClickNav "TOOLS"; ClickNav "CONTACT"] initialState
     = run [ClickNav "CONTACT"] initialState.
Proof.
  split; [split; reflexivity |].
  apply (X13_clicks_compose "TOOLS" "CONTACT" initialState);
    reflexivity.
Defined.

(** X14: with the menu closed the mobile entries and the mobile theme
    button are not rendered and cannot be clicked; a hamburger click renders
    the four entries, sets the main area to opacity-0 and labels the button
    Close Menu; selecting the entry of a menu item then closes the menu,
    brings the main area back to opacity-100 and renders exactly the block
    of the selected item. *)
Theorem X14_mobile_menu_flow :
  forall (item : string) (s : ViewState),
    isMenuItem item = true -> mobileMenuOpen s = false ->
    let opened := hamburger_onClick (mobileMenuOpen s) s in
    step (ClickMobileEntry item) s = None
    /\ step ClickMobileTheme s = None
    /\ ov_mobileNav (renderOverlay s) = None
    /\ option_map (map nb_label) (ov_mobileNav (renderOverlay opened))
       = Some menuItems
    /\ mainOpacity (mobileMenuOpen opened) = "opacity-0"%string
    /\ hamburgerLabel (mobileMenuOpen opened) = "Close Menu"%string
    /\ exists (s' : ViewState) (block : ContentBlock),
         run [ClickHamburger; ClickMobileEntry item] s = Some s'
         /\ s' = mkViewState (toLowerCase item) (isDarkMode s) false
         /\ ov_mobileNav (renderOverlay s') = None
         /\ mainOpacity (mobileMenuOpen s') = "opacity-100"%string
         /\ In (item, block)
               [ ("HOME", HomeHero); ("PROJECTS", ProjectsPlaceholder);
                 ("TOOLS", ToolsPlaceholder); ("CONTACT", ContactCard) ]%string
         /\ mainContent (activeSection s') = [block].
Proof.
  intros item [sec dark menu] Hi Hm opened. cbn in Hm. subst menu.
  unfold opened. cbn [step run mobileMenuOpen hamburger_onClick
                      setMobileMenuOpen negb andb].
  rewrite Hi. do 6 (split; [reflexivity |]).
  assert (Hitem : item = "HOME"%string \/ item = "PROJECTS"%string
                  \/ item = "TOOLS"%string \/ item = "CONTACT"%string).
  { unfold isMenuItem, menuItems in Hi. cbn [existsb] in Hi.
    rewrite !orb_true_iff in Hi.
    destruct Hi as [H | [H | [H | [H | H]]]]; try discriminate;
      apply String.eqb_eq in H; auto. }
  destruct Hitem as [-> | [-> | [-> | ->]]];
    [ exists (mkViewState "home" dark false), HomeHero
    | exists (mkViewState "projects" dark false), ProjectsPlaceholder
    | exists (mkViewState "tools" dark false), ToolsPlaceholder
    | exists (mkViewState "contact" dark false), ContactCard ];
    repeat split; cbn; auto 6.
Qed.

Lemma X14_mobile_menu_flow_witness :
  (isMenuItem "PROJECTS" = true /\ mobileMenuOpen initialState = false)
  /\ step (ClickMobileEntry "PROJECTS") initialState = None.
Proof.
  split; [split; reflexivity |].
  apply (X14_mobile_menu_flow "PROJECTS" initialState); reflexivity.
Defined.

(** ** The failure boundary *)

(** X15: the boundary renders its children until an error is caught; after
    that it renders the fallback panel with a non-empty message, the
    message of the error, or Unknown error when that is empty, and with
    the error's stack. *)
Theorem X15_fallback_message_never_empty :
  forall (C : Type) (children : C) (e : Error),
    ErrorBoundary_render boundaryInitial children = Children children
    /\ exists msg : string,
         ErrorBoundary_render (getDerivedStateFromError e) children
         = Fallback msg (stack e)
         /\ msg <> ""%string
         /\ (msg = message e
             \/ (message e = ""%string /\ msg = "Unknown error"%string)).
Proof.
  intros C children [m st]. split; [reflexivity |].
  destruct m as [| c rest].
  - exists "Unknown error"%string. repeat split; [discriminate | auto].
  - exists (String c rest). repeat split; [discriminate | auto].
Qed.

(** ** Negative phases *)

(** X16: when t s + o is negative the progress lies in (-1,0] and differs
    from t s + o by an integer, the opacity is 1, and the marker lies at
    or behind the start of a path that runs from z = 6 to z = 1. *)
Theorem X16_negative_phase_behind_start :
  forall t o s : R, t * s + o < 0 ->
    let p := pulse_progress t o s in
    -1 < p <= 0
    /\ pulse_opacity p = 1
    /\ (exists k : Z, t * s + o = IZR k + p)
    /\ forall a b : Vector3,
         vz a = 6 -> vz b = 1 -> 6 <= vz (lerpVectors a b p).
Proof.
  intros t o s Hneg p.
  set (x := t * s + o) in *.
  assert (E : p = - frac_part (- x)).
  { unfold p, pulse_progress, js_rem, trunc. fold x.
    replace (x / 1) with x by field.
    destruct (Rle_dec 0 x); [lra |].
    unfold frac_part. rewrite opp_IZR. ring. }
  destruct (base_fp (- x)) as [F0 F1].
  assert (Hp : -1 < p <= 0) by (rewrite E; lra).
  split; [exact Hp | split; [| split]].
  - unfold pulse_opacity. rewrite (proj2 (gtb_false_iff p 0.8)); [reflexivity | lra].
  - exists (- Int_part (- x))%Z. rewrite E. unfold frac_part.
    rewrite opp_IZR. ring.
  - intros a b Ha Hb. cbn. rewrite Ha, Hb. lra.
Qed.

Lemma X16_negative_phase_behind_start_witness :
  0 * 1 + -0.25 < 0 /\ -1 < pulse_progress 0 (-0.25) 1 <= 0.
Proof.
  assert (H : 0 * 1 + -0.25 < 0) by lra.
  split; [exact H |].
  apply (X16_negative_phase_behind_start 0 (-0.25) 1 H).
Defined.

(** ** Status lights *)

(** X17: a status light of [part_001] with speed s > 0 has scale 0.55 +
    0.75 opacity at every instant, repeats with period 2 PI / (15 s), and
    after any frames a mounted one has exactly the scale and opacity of
    the last frame. *)
Theorem X17_status_light_size_follows_brightness :
  forall (t o s : R) (k : nat), 0 < s ->
    Part001.scale t o s = 0.55 + 0.75 * Part001.opacity t o s
    /\ Part001.opacity (t + INR k * (2 * PI / (15 * s))) o s
       = Part001.opacity t o s
    /\ forall (ts : list R) (pos scl : Vector3) (op : R) (c : Color),
         runFrames (Part001.BlinkingLight_useFrame s o) (ts ++ [t])
                   (Some (mkMesh pos scl (mkMaterial MeshBasicMaterial op c)))
         = Some (mkMesh pos (setScalar (Part001.scale t o s))
                   (mkMaterial MeshBasicMaterial (Part001.opacity t o s) c)).
Proof.
  intros t o s k Hs. split; [| split].
  - unfold Part001.scale, Part001.opacity. lra.
  - unfold Part001.opacity, Part001.intensity.
    replace (((t + INR k * (2 * PI / (15 * s))) * s + o) * 15)
      with ((t * s + o) * 15 + 2 * INR k * PI) by (field; lra).
    rewrite sin_period. reflexivity.
  - intros ts pos scl op c. rewrite runFrames_last; [reflexivity |].
    intros t1 t2 st.
    destruct st as [[pos1 scl1 [cls op1 c1]] |]; [| reflexivity].
    unfold Part001.BlinkingLight_useFrame, setOpacity, isMeshBasicMaterial.
    cbn [mesh_position mesh_scale mesh_material mat_class mat_color].
    destruct cls; reflexivity.
Qed.

Lemma X17_status_light_size_follows_brightness_witness :
  0 < 4 /\ Part001.scale 0 0 4 = 0.55 + 0.75 * Part001.opacity 0 0 4.
Proof.
  split; [lra |].
  apply (X17_status_light_size_follows_brightness 0 0 4 0). lra.
Defined.
